(** * SDL_systimer.c (libretro timer of daphne_on_Android)

    A shallow embedding of the two halves of [SDL_systimer.c]: the
    [_WIN32] half (module [Win]) and the POSIX half that the Android
    build compiles (module [Posix]).  The file-scope variables become a
    record of globals; the operating system is an oracle over an abstract
    world; every call that leaves the file is appended to a trace. *)

From Stdlib Require Import ZArith List Bool String Ascii Lia.
Import ListNotations.
Local Open Scope Z_scope.

(** ** Fixed-width C integers, as [Z] with the wrap-around written out *)
Module CInt.

(** Conversion to [Uint32] / [DWORD] / [UINT]. *)
Definition u32 (z : Z) : Z := z mod 2 ^ 32.

(** Conversion to [Uint64]. *)
Definition u64 (z : Z) : Z := z mod 2 ^ 64.

(** Two's-complement wrap-around of a signed integer of [w] bits. *)
Definition sint (w z : Z) : Z := (z + 2 ^ (w - 1)) mod 2 ^ w - 2 ^ (w - 1).

(** [int] and [LONGLONG]. *)
Definition s32 : Z -> Z := sint 32.
Definition s64 : Z -> Z := sint 64.

End CInt.

(** ** A state monad for the code that threads globals and the world *)
Definition M (St A : Type) : Type := St -> A * St.

Definition ret {St A : Type} (a : A) : M St A := fun s => (a, s).

Definition bind {St A B : Type} (m : M St A) (k : A -> M St B) : M St B :=
  fun s => let (a, s') := m s in k a s'.

Notation "x <- m ;; k" := (bind m (fun x => k))
  (at level 61, m at next level, right associativity).
Notation "m ;;; k" := (bind m (fun _ => k))
  (at level 61, right associativity).

Definition when {St : Type} (b : bool) (m : M St unit) : M St unit :=
  if b then m else ret tt.

(** Result and final state of a run. *)
Definition value {St A : Type} (r : A * St) : A := fst r.
Definition after {St A : Type} (r : A * St) : St := snd r.

(** ** The [_WIN32] half

    The build modelled is the desktop one: [__WINRT__] is not defined, so
    [timeGetTime], [timeBeginPeriod] and [timeEndPeriod] are called. *)
Module Win.
Import CInt.

(** A non-null [const char *]: its address and the text it points to.
    [NULL] is [None]. *)
Record cstring : Type := { c_addr : Z; c_chars : string }.
Definition cptr : Type := option cstring.

(** [hint && *hint] *)
Definition nonempty (p : cptr) : bool :=
  match p with
  | Some c => match c_chars c with EmptyString => false | String _ _ => true end
  | None => false
  end.

(** The text behind a pointer the code has checked to be non-null. *)
Definition chars (p : cptr) : string :=
  match p with Some c => c_chars c | None => EmptyString end.

(** [p == q] on pointers: the addresses are compared, not the text. *)
Definition cptr_eqb (p q : cptr) : bool :=
  match p, q with
  | None, None => true
  | Some a, Some b => c_addr a =? c_addr b
  | _, _ => false
  end.

(** Calls that leave the file, in the order they are made. *)
Inductive event : Type :=
| EvTimeBeginPeriod (uPeriod : Z)
| EvTimeEndPeriod (uPeriod : Z)
| EvAddHintCallback
| EvDelHintCallback
| EvQueryPerformanceFrequency
| EvQueryPerformanceCounter
| EvTimeGetTime.

(** The operating system and the hint registry.  A query returns its
    [BOOL] result and what the out-parameter holds afterwards.
    Registering a hint callback may call the callback back at once, with
    the old value and the hint the registry chooses. *)
Class OS (W : Type) : Type := {
  os_QueryPerformanceFrequency : W -> (Z * Z) * W;
  os_QueryPerformanceCounter : W -> (Z * Z) * W;
  os_timeGetTime : W -> Z * W;
  os_timeBeginPeriod : Z -> W -> W;
  os_timeEndPeriod : Z -> W -> W;
  os_AddHintCallback : W -> option (cptr * cptr) * W;
  os_DelHintCallback : W -> W
}.

(** The file-scope variables, and the function-local static
    [timer_period] of [SDL_SetSystemTimerResolution]. *)
Record globals : Type := {
  start : Z;
  ticks_started : bool;
  hires_timer_available : bool;
  hires_start_ticks : Z;
  hires_ticks_per_second : Z;
  timer_period : Z
}.

(** What the C initialisers give: [start = 0], [ticks_started = FALSE],
    the rest zero-initialised. *)
Definition initial_globals : globals :=
  {| start := 0; ticks_started := false; hires_timer_available := false;
     hires_start_ticks := 0; hires_ticks_per_second := 0; timer_period := 0 |}.

Definition set_start (v : Z) (g : globals) : globals :=
  {| start := v; ticks_started := ticks_started g;
     hires_timer_available := hires_timer_available g;
     hires_start_ticks := hires_start_ticks g;
     hires_ticks_per_second := hires_ticks_per_second g;
     timer_period := timer_period g |}.

Definition set_ticks_started (v : bool) (g : globals) : globals :=
  {| start := start g; ticks_started := v;
     hires_timer_available := hires_timer_available g;
     hires_start_ticks := hires_start_ticks g;
     hires_ticks_per_second := hires_ticks_per_second g;
     timer_period := timer_period g |}.

Definition set_hires_timer_available (v : bool) (g : globals) : globals :=
  {| start := start g; ticks_started := ticks_started g;
     hires_timer_available := v;
     hires_start_ticks := hires_start_ticks g;
     hires_ticks_per_second := hires_ticks_per_second g;
     timer_period := timer_period g |}.

Definition set_hires_start_ticks (v : Z) (g : globals) : globals :=
  {| start := start g; ticks_started := ticks_started g;
     hires_timer_available := hires_timer_available g;
     hires_start_ticks := v;
     hires_ticks_per_second := hires_ticks_per_second g;
     timer_period := timer_period g |}.

Definition set_hires_ticks_per_second (v : Z) (g : globals) : globals :=
  {| start := start g; ticks_started := ticks_started g;
     hires_timer_available := hires_timer_available g;
     hires_start_ticks := hires_start_ticks g;
     hires_ticks_per_second := v;
     timer_period := timer_period g |}.

Definition set_timer_period (v : Z) (g : globals) : globals :=
  {| start := start g; ticks_started := ticks_started g;
     hires_timer_available := hires_timer_available g;
     hires_start_ticks := hires_start_ticks g;
     hires_ticks_per_second := hires_ticks_per_second g;
     timer_period := v |}.

(** Globals, world and trace. *)
Record state (W : Type) : Type := mkState {
  mem : globals;
  world : W;
  trace : list event
}.
Arguments mkState {W} _ _ _.
Arguments mem {W} _.
Arguments world {W} _.
Arguments trace {W} _.

(** Blanks and decimal digits, for the numeric parse below. *)
Definition is_blank (c : ascii) : bool :=
  let n := Z.of_nat (nat_of_ascii c) in (n =? 32) || ((9 <=? n) && (n <=? 13)).

Definition digit_of (c : ascii) : option Z :=
  let n := Z.of_nat (nat_of_ascii c) in
  if (48 <=? n) && (n <=? 57) then Some (n - 48) else None.

Fixpoint parse_digits (acc : Z) (s : string) : Z :=
  match s with
  | EmptyString => acc
  | String c r =>
      match digit_of c with
      | Some d => parse_digits (10 * acc + d) r
      | None => acc
      end
  end.

Fixpoint skip_blanks (s : string) : string :=
  match s with
  | EmptyString => EmptyString
  | String c r => if is_blank c then skip_blanks r else s
  end.

(** Modelled from the spec: [SDL_atoi] lives in SDL's stdlib layer, not
    in this file.  The spec gives it as a numeric parse
    [string -> i32] with invalid text parsing to [0]: optional blanks,
    an optional sign, then decimal digits up to the first other
    character. *)
Definition SDL_atoi (s : string) : Z :=
  match skip_blanks s with
  | String "-"%char r => s32 (- parse_digits 0 r)
  | String "+"%char r => s32 (parse_digits 0 r)
  | r => s32 (parse_digits 0 r)
  end.

Section WithOS.
Context {W : Type} {os : OS W}.

Definition get_mem : M (state W) globals := fun s => (mem s, s).

Definition update (f : globals -> globals) : M (state W) unit :=
  fun s => (tt, mkState (f (mem s)) (world s) (trace s)).

(** A call to the outside: the oracle answers and moves the world, the
    call is logged. *)
Definition call {A : Type} (e : event) (f : W -> A * W) : M (state W) A :=
  fun s => let (a, w) := f (world s) in (a, mkState (mem s) w (trace s ++ [e])).

Definition call_ (e : event) (f : W -> W) : M (state W) unit :=
  call e (fun w => (tt, f w)).

Definition QueryPerformanceFrequency : M (state W) (Z * Z) :=
  call EvQueryPerformanceFrequency os_QueryPerformanceFrequency.
Definition QueryPerformanceCounter : M (state W) (Z * Z) :=
  call EvQueryPerformanceCounter os_QueryPerformanceCounter.
Definition timeGetTime : M (state W) Z :=
  call EvTimeGetTime os_timeGetTime.
Definition timeBeginPeriod (p : Z) : M (state W) unit :=
  call_ (EvTimeBeginPeriod p) (os_timeBeginPeriod p).
Definition timeEndPeriod (p : Z) : M (state W) unit :=
  call_ (EvTimeEndPeriod p) (os_timeEndPeriod p).

(** [SDL_SetSystemTimerResolution], in the build without [__WINRT__]. *)
Definition SDL_SetSystemTimerResolution (uPeriod : Z) : M (state W) unit :=
  g <- get_mem ;;
  if negb (uPeriod =? timer_period g) then
    when (negb (timer_period g =? 0)) (timeEndPeriod (timer_period g)) ;;;
    update (set_timer_period uPeriod) ;;;
    g' <- get_mem ;;
    when (negb (timer_period g' =? 0)) (timeBeginPeriod (timer_period g'))
  else ret tt.

(** [SDL_TimerResolutionChanged].  [userdata] and [name] are not
    used by the body; [oldValue != hint] compares the two pointers. *)
Definition SDL_TimerResolutionChanged
    (userdata : Z) (name oldValue hint : cptr) : M (state W) unit :=
  let uPeriod :=
    if nonempty hint then u32 (SDL_atoi (chars hint)) else 1 in
  if negb (uPeriod =? 0) || negb (cptr_eqb oldValue hint) then
    SDL_SetSystemTimerResolution uPeriod
  else ret tt.

(** [SDL_AddHintCallback(SDL_HINT_TIMER_RESOLUTION,
    SDL_TimerResolutionChanged, NULL)]: the registry is told, and
    runs the callback if it chooses to. *)
Definition SDL_AddHintCallback : M (state W) unit :=
  cb <- call EvAddHintCallback os_AddHintCallback ;;
  match cb with
  | Some (oldValue, hint) => SDL_TimerResolutionChanged 0 None oldValue hint
  | None => ret tt
  end.

Definition SDL_DelHintCallback : M (state W) unit :=
  call_ EvDelHintCallback os_DelHintCallback.

(** [SDL_TicksInit] *)
Definition SDL_TicksInit : M (state W) unit :=
  g <- get_mem ;;
  if ticks_started g then ret tt
  else
    update (set_ticks_started true) ;;;
    SDL_AddHintCallback ;;;
    f <- QueryPerformanceFrequency ;;
    update (set_hires_ticks_per_second (snd f)) ;;;
    if fst f =? 1 then
      update (set_hires_timer_available true) ;;;
      c <- QueryPerformanceCounter ;;
      update (set_hires_start_ticks (snd c))
    else
      update (set_hires_timer_available false) ;;;
      t <- timeGetTime ;;
      update (set_start t).

(** [SDL_TicksQuit] *)
Definition SDL_TicksQuit : M (state W) unit :=
  SDL_DelHintCallback ;;;
  SDL_SetSystemTimerResolution 0 ;;;
  update (set_start 0) ;;;
  update (set_ticks_started false).

(** [SDL_GetTicks].  The three compound assignments on
    [hires_now.QuadPart] are [LONGLONG] operations; [/] truncates
    towards zero.  C leaves a division by zero undefined: what is stated
    below about the quotient is stated for a frequency that is not
    zero. *)
Definition SDL_GetTicks : M (state W) Z :=
  g0 <- get_mem ;;
  when (negb (ticks_started g0)) SDL_TicksInit ;;;
  g <- get_mem ;;
  if hires_timer_available g then
    c <- QueryPerformanceCounter ;;
    let hires_now := snd c in
    let hires_now := s64 (hires_now - hires_start_ticks g) in
    let hires_now := s64 (hires_now * 1000) in
    let hires_now := s64 (Z.quot hires_now (hires_ticks_per_second g)) in
    ret (u32 hires_now)
  else
    now <- timeGetTime ;;
    ret (u32 (now - start g)).

(** [SDL_GetPerformanceCounter] *)
Definition SDL_GetPerformanceCounter : M (state W) Z :=
  c <- QueryPerformanceCounter ;;
  if fst c =? 0 then
    t <- SDL_GetTicks ;;
    ret (u64 t)
  else ret (u64 (snd c)).

(** [SDL_GetPerformanceFrequency] *)
Definition SDL_GetPerformanceFrequency : M (state W) Z :=
  f <- QueryPerformanceFrequency ;;
  if fst f =? 0 then ret 1000 else ret (u64 (snd f)).

(** *** Vocabulary for the statements about the Windows half *)

(** What a change of period away from [old] and to [new] adds to the
    trace and does to the world: the old request is given back if there
    was one, then the new one is made if there is one. *)
Definition released (old : Z) : list event :=
  if old =? 0 then [] else [EvTimeEndPeriod old].

Definition installed (new : Z) : list event :=
  if new =? 0 then [] else [EvTimeBeginPeriod new].

Definition release_world (old : Z) (w : W) : W :=
  if old =? 0 then w else os_timeEndPeriod old w.

Definition install_world (new : Z) (w : W) : W :=
  if new =? 0 then w else os_timeBeginPeriod new w.

(** The state [SDL_TicksInit] is in when it turns to the clocks: the
    flag is set and the hint callback is registered (and has run, if the
    registry ran it). *)
Definition registered (s : state W) : state W :=
  after (SDL_AddHintCallback
           (mkState (set_ticks_started true (mem s)) (world s) (trace s))).

(** What [SDL_GetTicks] does once [SDL_TicksInit] has run. *)
Definition ticks_now (s : state W) : Z * state W :=
  let g := mem s in
  if hires_timer_available g then
    let c := os_QueryPerformanceCounter (world s) in
    (u32 (s64 (Z.quot (s64 (s64 (snd (fst c) - hires_start_ticks g) * 1000))
                      (hires_ticks_per_second g))),
     mkState g (snd c) (trace s ++ [EvQueryPerformanceCounter]))
  else
    let t := os_timeGetTime (world s) in
    (u32 (fst t - start g), mkState g (snd t) (trace s ++ [EvTimeGetTime])).

(** Milliseconds since the origin before any wrap-around, on the
    high-resolution path: counter ticks scaled by 1000 over the
    frequency, rounded towards zero. *)
Definition hires_ms (origin freq now : Z) : Z :=
  Z.quot ((now - origin) * 1000) freq.

(** The clock [SDL_GetTicks] is about to read shows the very reading
    kept as origin. *)
Definition reads_origin (s : state W) : Prop :=
  if hires_timer_available (mem s)
  then snd (fst (os_QueryPerformanceCounter (world s)))
       = hires_start_ticks (mem s)
  else fst (os_timeGetTime (world s)) = start (mem s).

(** [s1] holds an origin taken from the clock during an initialisation
    that began in [s0]: the counter reading if
    [QueryPerformanceFrequency] answered [TRUE], the reading of
    [timeGetTime] otherwise. *)
Definition origin_captured (s0 s1 : state W) : Prop :=
  let f := os_QueryPerformanceFrequency (world (registered s0)) in
  if fst (fst f) =? 1 then
    hires_timer_available (mem s1) = true /\
    hires_start_ticks (mem s1) = snd (fst (os_QueryPerformanceCounter (snd f)))
  else
    hires_timer_available (mem s1) = false /\
    start (mem s1) = fst (os_timeGetTime (snd f)).

(** The period the callback computes from its hint. *)
Definition hint_period (hint : cptr) : Z :=
  if nonempty hint then u32 (SDL_atoi (chars hint)) else 1.

End WithOS.
End Win.

(** ** The POSIX half, as built for Android *)
Module Posix.
Import CInt.

(** [struct timespec] and [struct timeval].  Both have a field [tv_sec]
    in C; the fields of [timespec] are written [ts_sec] and [ts_nsec]
    here to keep the two records apart. *)
Record timespec : Type := { ts_sec : Z; ts_nsec : Z }.
Record timeval : Type := { tv_sec : Z; tv_usec : Z }.

(** What [nanosleep(&tv, &elapsed)] leaves behind: its return value,
    [errno] after the call (the code clears it just before), and the
    remaining time if the call wrote one into [elapsed]. *)
Record nanosleep_result : Type := {
  ns_ret : Z;
  ns_errno : Z;
  ns_rem : option timespec
}.

(** [EINTR] as [errno.h] has it on Linux and Android. *)
Definition EINTR : Z := 4.

(** Calls that leave the file, in the order they are made. *)
Inductive event : Type :=
| EvClockGettime
| EvGettimeofday
| EvNanosleep (tv : timespec).

(** The operating system.  A clock query returns its result code and what
    the out-parameter holds afterwards. *)
Class OS (W : Type) : Type := {
  os_clock_gettime : W -> (Z * timespec) * W;
  os_gettimeofday : W -> timeval * W;
  os_nanosleep : timespec -> W -> nanosleep_result * W
}.

(** What the build fixes: whether [HAVE_CLOCK_GETTIME] is set by the
    configuration header (which is not part of this file), and the width
    of [long], which is also that of [time_t] and [suseconds_t] on
    Android.  [__APPLE__] is not defined on this target. *)
Inductive abi : Type := ILP32 | LP64.

Class Build : Type := {
  HAVE_CLOCK_GETTIME : bool;
  target_abi : abi
}.

Definition long_bits (a : abi) : Z :=
  match a with ILP32 => 32 | LP64 => 64 end.

(** The file-scope variables. *)
Record globals : Type := {
  start_ts : timespec;
  has_monotonic_time : bool;
  start_tv : timeval;
  ticks_started : bool
}.

Definition initial_globals : globals :=
  {| start_ts := {| ts_sec := 0; ts_nsec := 0 |};
     has_monotonic_time := false;
     start_tv := {| tv_sec := 0; tv_usec := 0 |};
     ticks_started := false |}.

Definition set_start_ts (v : timespec) (g : globals) : globals :=
  {| start_ts := v; has_monotonic_time := has_monotonic_time g;
     start_tv := start_tv g; ticks_started := ticks_started g |}.

Definition set_has_monotonic_time (v : bool) (g : globals) : globals :=
  {| start_ts := start_ts g; has_monotonic_time := v;
     start_tv := start_tv g; ticks_started := ticks_started g |}.

Definition set_start_tv (v : timeval) (g : globals) : globals :=
  {| start_ts := start_ts g; has_monotonic_time := has_monotonic_time g;
     start_tv := v; ticks_started := ticks_started g |}.

Definition set_ticks_started (v : bool) (g : globals) : globals :=
  {| start_ts := start_ts g; has_monotonic_time := has_monotonic_time g;
     start_tv := start_tv g; ticks_started := v |}.

(** Globals, world and trace. *)
Record state (W : Type) : Type := mkState {
  mem : globals;
  world : W;
  trace : list event
}.
Arguments mkState {W} _ _ _.
Arguments mem {W} _.
Arguments world {W} _.
Arguments trace {W} _.

Definition with_mem {W : Type} (g : globals) (s : state W) : state W :=
  mkState g (world s) (trace s).

Section WithOS.
Context {W : Type} {os : OS W} {build : Build}.

(** Arithmetic in [long]. *)
Definition long (z : Z) : Z := sint (long_bits target_abi) z.

Definition get_mem : M (state W) globals := fun s => (mem s, s).

Definition update (f : globals -> globals) : M (state W) unit :=
  fun s => (tt, mkState (f (mem s)) (world s) (trace s)).

Definition call {A : Type} (e : event) (f : W -> A * W) : M (state W) A :=
  fun s => let (a, w) := f (world s) in (a, mkState (mem s) w (trace s ++ [e])).

Definition clock_gettime : M (state W) (Z * timespec) :=
  call EvClockGettime os_clock_gettime.
Definition gettimeofday : M (state W) timeval :=
  call EvGettimeofday os_gettimeofday.
Definition nanosleep (tv : timespec) : M (state W) nanosleep_result :=
  call (EvNanosleep tv) (os_nanosleep tv).

(** [SDL_TicksInit] *)
Definition SDL_TicksInit : M (state W) unit :=
  g <- get_mem ;;
  if ticks_started g then ret tt
  else
    update (set_ticks_started true) ;;;
    if HAVE_CLOCK_GETTIME then
      r <- clock_gettime ;;
      update (set_start_ts (snd r)) ;;;
      if fst r =? 0 then update (set_has_monotonic_time true)
      else
        tv <- gettimeofday ;;
        update (set_start_tv tv)
    else
      tv <- gettimeofday ;;
      update (set_start_tv tv).

(** [SDL_TicksQuit] *)
Definition SDL_TicksQuit : M (state W) unit :=
  update (set_ticks_started false).

(** [SDL_GetTicks].  The subtractions, the product and the sum are
    computed in [long] and the result is converted to [Uint32].  Without
    [HAVE_CLOCK_GETTIME] the monotonic branch is the [SDL_assert] and
    [ticks = 0]. *)
Definition SDL_GetTicks : M (state W) Z :=
  g0 <- get_mem ;;
  when (negb (ticks_started g0)) SDL_TicksInit ;;;
  g <- get_mem ;;
  if has_monotonic_time g then
    if HAVE_CLOCK_GETTIME then
      r <- clock_gettime ;;
      let now := snd r in
      ret (u32 (long (long (long (ts_sec now - ts_sec (start_ts g)) * 1000)
                      + long (Z.quot (long (ts_nsec now - ts_nsec (start_ts g)))
                                     1000000))))
    else ret 0
  else
    now <- gettimeofday ;;
    ret (u32 (long (long (long (tv_sec now - tv_sec (start_tv g)) * 1000)
                    + long (Z.quot (long (tv_usec now - tv_usec (start_tv g)))
                                   1000)))).

(** [SDL_GetPerformanceCounter].  [ticks] is a [Uint64]. *)
Definition SDL_GetPerformanceCounter : M (state W) Z :=
  g0 <- get_mem ;;
  when (negb (ticks_started g0)) SDL_TicksInit ;;;
  g <- get_mem ;;
  if has_monotonic_time g then
    if HAVE_CLOCK_GETTIME then
      r <- clock_gettime ;;
      let now := snd r in
      let ticks := u64 (ts_sec now) in
      let ticks := u64 (ticks * 1000000000) in
      let ticks := u64 (ticks + ts_nsec now) in
      ret ticks
    else ret 0
  else
    now <- gettimeofday ;;
    let ticks := u64 (tv_sec now) in
    let ticks := u64 (ticks * 1000000) in
    let ticks := u64 (ticks + tv_usec now) in
    ret ticks.

(** [SDL_GetPerformanceFrequency] *)
Definition SDL_GetPerformanceFrequency : M (state W) Z :=
  g0 <- get_mem ;;
  when (negb (ticks_started g0)) SDL_TicksInit ;;;
  g <- get_mem ;;
  if has_monotonic_time g then
    if HAVE_CLOCK_GETTIME then ret 1000000000
    else ret 1000000
  else ret 1000000.

(** The loop condition of [SDL_Delay], [was_error && (errno == EINTR)]. *)
Definition interrupted (r : nanosleep_result) : bool :=
  negb (ns_ret r =? 0) && (ns_errno r =? EINTR).

(** One turn of the [do ... while] of [SDL_Delay]: [errno = 0],
    [tv = elapsed], [was_error = nanosleep(&tv, &elapsed)].  It returns
    the loop condition [was_error && (errno == EINTR)] and the new
    [elapsed]. *)
Definition delay_turn (elapsed : timespec) : M (state W) (bool * timespec) :=
  let tv := elapsed in
  r <- nanosleep tv ;;
  let elapsed := match ns_rem r with Some rem => rem | None => elapsed end in
  ret (interrupted r, elapsed).

(** The loop, with a bound on the number of turns. *)
Fixpoint delay_loop (fuel : nat) (elapsed : timespec) (s : state W)
  : option (state W) :=
  match fuel with
  | O => None
  | S fuel' =>
      let (r, s') := delay_turn elapsed s in
      if fst r then delay_loop fuel' (snd r) s' else Some s'
  end.

(** [SDL_Delay]: [ms] is a [Uint32]. *)
Definition SDL_Delay (fuel : nat) (ms : Z) (s : state W) : option (state W) :=
  let elapsed :=
    {| ts_sec := ms / 1000; ts_nsec := u32 ((ms mod 1000) * 1000000) |} in
  delay_loop fuel elapsed s.

(** *** Vocabulary for the statements about the POSIX half *)

(** A duration in nanoseconds. *)
Definition ts_ns (t : timespec) : Z := ts_sec t * 1000000000 + ts_nsec t.

(** The sub-second field of a reading is in range. *)
Definition valid_ts (t : timespec) : Prop := 0 <= ts_nsec t < 1000000000.
Definition valid_tv (t : timeval) : Prop := 0 <= tv_usec t < 1000000.

(** Milliseconds between two readings, before any wrap-around, as
    [SDL_GetTicks] converts them. *)
Definition ms_between_ts (origin now : timespec) : Z :=
  (ts_sec now - ts_sec origin) * 1000
  + Z.quot (ts_nsec now - ts_nsec origin) 1000000.

Definition ms_between_tv (origin now : timeval) : Z :=
  (tv_sec now - tv_sec origin) * 1000
  + Z.quot (tv_usec now - tv_usec origin) 1000.

(** What [SDL_GetTicks] does once [SDL_TicksInit] has run: it reads the
    clock that was selected and converts. *)
Definition ticks_now (s : state W) : Z * state W :=
  let g := mem s in
  if has_monotonic_time g then
    if HAVE_CLOCK_GETTIME then
      let r := os_clock_gettime (world s) in
      (u32 (long (long (long (ts_sec (snd (fst r)) - ts_sec (start_ts g)) * 1000)
                  + long (Z.quot (long (ts_nsec (snd (fst r))
                                        - ts_nsec (start_ts g)))
                                 1000000))),
       mkState g (snd r) (trace s ++ [EvClockGettime]))
    else (0, s)
  else
    let t := os_gettimeofday (world s) in
    (u32 (long (long (long (tv_sec (fst t) - tv_sec (start_tv g)) * 1000)
                + long (Z.quot (long (tv_usec (fst t) - tv_usec (start_tv g)))
                               1000))),
     mkState g (snd t) (trace s ++ [EvGettimeofday])).

(** The same for [SDL_GetPerformanceCounter]. *)
Definition counter_now (s : state W) : Z * state W :=
  let g := mem s in
  if has_monotonic_time g then
    if HAVE_CLOCK_GETTIME then
      let r := os_clock_gettime (world s) in
      (u64 (u64 (u64 (ts_sec (snd (fst r))) * 1000000000) + ts_nsec (snd (fst r))),
       mkState g (snd r) (trace s ++ [EvClockGettime]))
    else (0, s)
  else
    let t := os_gettimeofday (world s) in
    (u64 (u64 (u64 (tv_sec (fst t)) * 1000000) + tv_usec (fst t)),
     mkState g (snd t) (trace s ++ [EvGettimeofday])).

(** The clock [SDL_GetTicks] is about to read shows the very reading
    kept as origin. *)
Definition reads_origin (s : state W) : Prop :=
  if has_monotonic_time (mem s)
  then snd (fst (os_clock_gettime (world s))) = start_ts (mem s)
  else fst (os_gettimeofday (world s)) = start_tv (mem s).

(** [s1] holds an origin taken from the clock during an initialisation
    that began in [s0].  When the build has [clock_gettime] and the call
    succeeds, the monotonic clock is selected and its reading kept.
    Otherwise the reading of [gettimeofday] is kept, and
    [has_monotonic_time] is left as it was: the code has no assignment
    that clears it. *)
Definition origin_captured (s0 s1 : state W) : Prop :=
  if HAVE_CLOCK_GETTIME then
    let r := os_clock_gettime (world s0) in
    if fst (fst r) =? 0 then
      has_monotonic_time (mem s1) = true /\ start_ts (mem s1) = snd (fst r)
    else
      has_monotonic_time (mem s1) = has_monotonic_time (mem s0) /\
      start_tv (mem s1) = fst (os_gettimeofday (snd r))
  else
    has_monotonic_time (mem s1) = has_monotonic_time (mem s0) /\
    start_tv (mem s1) = fst (os_gettimeofday (world s0)).

(** The clock selected in an earlier epoch, if any, still answers: when
    [has_monotonic_time] is set, the build has [clock_gettime] and its
    next call succeeds. *)
Definition clock_still_answers (s : state W) : Prop :=
  has_monotonic_time (mem s) = true ->
  HAVE_CLOCK_GETTIME = true /\ fst (fst (os_clock_gettime (world s))) = 0.

(** The origin [SDL_GetTicks] will subtract in [s1] is the reading taken
    during the initialisation that began in [s0]. *)
Definition origin_in_use_is_fresh (s0 s1 : state W) : Prop :=
  if has_monotonic_time (mem s1)
  then start_ts (mem s1) = snd (fst (os_clock_gettime (world s0)))
  else start_tv (mem s1)
       = fst (os_gettimeofday
                (if HAVE_CLOCK_GETTIME then snd (os_clock_gettime (world s0))
                 else world s0)).

(** The sleeps one call of [SDL_Delay] goes through: from world [w], a
    first request [tv], the list of all requests made, and the world at
    the end.  A request that is interrupted is followed by a request for
    what [nanosleep] left in [elapsed]; any other outcome ends the call. *)
Inductive sleeps : W -> timespec -> list timespec -> W -> Prop :=
| sleeps_done : forall w tv r w',
    os_nanosleep tv w = (r, w') ->
    interrupted r = false ->
    sleeps w tv [tv] w'
| sleeps_again : forall w tv r w' tvs w'',
    os_nanosleep tv w = (r, w') ->
    interrupted r = true ->
    sleeps w' (match ns_rem r with Some rem => rem | None => tv end) tvs w'' ->
    sleeps w tv (tv :: tvs) w''.

(** Every interruption leaves a remaining time that is non-negative and
    strictly shorter than the time asked for. *)
Definition interruptions_decrease : Prop :=
  forall tv w,
    interrupted (fst (os_nanosleep tv w)) = true ->
    exists rem,
      ns_rem (fst (os_nanosleep tv w)) = Some rem /\ 0 <= ts_ns rem < ts_ns tv.

(** The globals agree with the build: the monotonic clock is only ever
    selected by a build that has it. *)
Definition consistent (g : globals) : Prop :=
  has_monotonic_time g = true -> HAVE_CLOCK_GETTIME = true.

End WithOS.
End Posix.

(** ** Scripted operating systems, to run the code on concrete inputs *)
Module Script.

(** A Windows machine: the answer of [QueryPerformanceFrequency], the
    result code of [QueryPerformanceCounter] and its successive readings,
    the successive readings of [timeGetTime], and what the hint registry
    passes to a callback when it is registered. *)
Record win_world : Type := {
  qpf_answer : Z * Z;
  qpc_rc : Z;
  qpc_readings : list Z;
  tgt_readings : list Z;
  hint_call : option (Win.cptr * Win.cptr)
}.

Definition win_next_qpc (w : win_world) : win_world :=
  {| qpf_answer := qpf_answer w; qpc_rc := qpc_rc w;
     qpc_readings := tl (qpc_readings w);
     tgt_readings := tgt_readings w; hint_call := hint_call w |}.

Definition win_next_tgt (w : win_world) : win_world :=
  {| qpf_answer := qpf_answer w; qpc_rc := qpc_rc w;
     qpc_readings := qpc_readings w;
     tgt_readings := tl (tgt_readings w); hint_call := hint_call w |}.

#[export] Instance win_os : Win.OS win_world := {
  os_QueryPerformanceFrequency w := (qpf_answer w, w);
  os_QueryPerformanceCounter w :=
    ((qpc_rc w, hd 0 (qpc_readings w)), win_next_qpc w);
  os_timeGetTime w := (hd 0 (tgt_readings w), win_next_tgt w);
  os_timeBeginPeriod _ w := w;
  os_timeEndPeriod _ w := w;
  os_AddHintCallback w := (hint_call w, w);
  os_DelHintCallback w := w
}.

Definition win_boot (w : win_world) : Win.state win_world :=
  Win.mkState Win.initial_globals w [].

(** A machine that holds a timer-resolution request of period 5. *)
Definition holding_5 : Win.state win_world :=
  Win.mkState (Win.set_timer_period 5 Win.initial_globals)
    {| qpf_answer := (1, 10000000); qpc_rc := 1;
       qpc_readings := []; tgt_readings := [];
       hint_call := None |}
    [].

Definition hint_abc : Win.cptr :=
  Some {| Win.c_addr := 4096; Win.c_chars := "abc" |}.
Definition hint_5 : Win.cptr :=
  Some {| Win.c_addr := 4096; Win.c_chars := "5" |}.
Definition hint_empty : Win.cptr :=
  Some {| Win.c_addr := 8192; Win.c_chars := "" |}.

(** A machine whose performance counter runs at 3 GHz: the origin
    reading, then two readings one second apart, a little over 35 days
    later. *)
Definition tsc_machine : win_world :=
  {| qpf_answer := (1, 3000000000); qpc_rc := 1;
     qpc_readings := [0; 9223372036000000; 9223375036000000];
     tgt_readings := []; hint_call := None |}.

(** A machine without a performance counter, whose hint registry calls
    the callback back with the hint 5 when it is registered. *)
Definition plain_machine : win_world :=
  {| qpf_answer := (0, 0); qpc_rc := 0;
     qpc_readings := []; tgt_readings := [70000; 70000; 70250];
     hint_call := Some (hint_5, hint_5) |}.

(** A machine with a 10 MHz performance counter. *)
Definition hires_machine : win_world :=
  {| qpf_answer := (1, 10000000); qpc_rc := 1;
     qpc_readings := [123456789; 123456789; 133456789]; tgt_readings := [];
     hint_call := None |}.

(** An Android device: the result code of [clock_gettime] and its
    successive readings, the successive readings of [gettimeofday], and
    the number of signals still to arrive during sleeps.  A sleep that a
    signal interrupts has slept half of what it was asked. *)
Record px_world : Type := {
  mono_rc : Z;
  mono_readings : list Posix.timespec;
  wall_readings : list Posix.timeval;
  signals : nat
}.

Definition ts0 : Posix.timespec := {| Posix.ts_sec := 0; Posix.ts_nsec := 0 |}.
Definition tv0 : Posix.timeval := {| Posix.tv_sec := 0; Posix.tv_usec := 0 |}.

Definition px_next_mono (w : px_world) : px_world :=
  {| mono_rc := mono_rc w; mono_readings := tl (mono_readings w);
     wall_readings := wall_readings w; signals := signals w |}.

Definition px_next_wall (w : px_world) : px_world :=
  {| mono_rc := mono_rc w; mono_readings := mono_readings w;
     wall_readings := tl (wall_readings w); signals := signals w |}.

Definition px_sleep (tv : Posix.timespec) (w : px_world)
  : Posix.nanosleep_result * px_world :=
  match signals w with
  | S n =>
      if 0 <? Posix.ts_ns tv then
        ({| Posix.ns_ret := -1; Posix.ns_errno := Posix.EINTR;
            Posix.ns_rem :=
              Some {| Posix.ts_sec := (Posix.ts_ns tv / 2) / 1000000000;
                      Posix.ts_nsec := (Posix.ts_ns tv / 2) mod 1000000000 |} |},
         {| mono_rc := mono_rc w; mono_readings := mono_readings w;
            wall_readings := wall_readings w; signals := n |})
      else
        ({| Posix.ns_ret := 0; Posix.ns_errno := 0; Posix.ns_rem := None |}, w)
  | O => ({| Posix.ns_ret := 0; Posix.ns_errno := 0; Posix.ns_rem := None |}, w)
  end.

#[export] Instance px_os : Posix.OS px_world := {
  os_clock_gettime w := ((mono_rc w, hd ts0 (mono_readings w)), px_next_mono w);
  os_gettimeofday w := (hd tv0 (wall_readings w), px_next_wall w);
  os_nanosleep := px_sleep
}.

Definition android32 : Posix.Build :=
  {| Posix.HAVE_CLOCK_GETTIME := true; Posix.target_abi := Posix.ILP32 |}.
Definition android64 : Posix.Build :=
  {| Posix.HAVE_CLOCK_GETTIME := true; Posix.target_abi := Posix.LP64 |}.
Definition no_clock_gettime : Posix.Build :=
  {| Posix.HAVE_CLOCK_GETTIME := false; Posix.target_abi := Posix.ILP32 |}.

(** A device with a monotonic clock, and one where [clock_gettime]
    fails. *)
Definition monotonic_device : px_world :=
  {| mono_rc := 0;
     mono_readings :=
       [ {| Posix.ts_sec := 100; Posix.ts_nsec := 999000000 |};
         {| Posix.ts_sec := 100; Posix.ts_nsec := 999000000 |};
         {| Posix.ts_sec := 101; Posix.ts_nsec := 4000000 |} ];
     wall_readings := [];
     signals := 3 |}.

Definition wall_clock_device : px_world :=
  {| mono_rc := -1;
     mono_readings := [];
     wall_readings :=
       [ {| Posix.tv_sec := 100; Posix.tv_usec := 0 |};
         {| Posix.tv_sec := 100; Posix.tv_usec := 5000 |} ];
     signals := 0 |}.

(** A device that has been up for a little under [2^32] ms when it is
    read twice, 10 ms apart. *)
Definition long_running_device : px_world :=
  {| mono_rc := 0;
     mono_readings :=
       [ {| Posix.ts_sec := 0; Posix.ts_nsec := 0 |};
         {| Posix.ts_sec := 4294967; Posix.ts_nsec := 290000000 |};
         {| Posix.ts_sec := 4294967; Posix.ts_nsec := 300000000 |} ];
     wall_readings := [];
     signals := 0 |}.

Definition px_boot (w : px_world) : Posix.state px_world :=
  Posix.mkState Posix.initial_globals w [].

(** Where a delay of 50 ms leaves the device with the monotonic clock,
    started from boot: three signals have arrived, four sleeps were
    asked for. *)
Definition delayed_50 : Posix.state px_world :=
  Posix.mkState Posix.initial_globals
    {| mono_rc := 0; mono_readings := mono_readings monotonic_device;
       wall_readings := []; signals := 0 |}
    [ Posix.EvNanosleep {| Posix.ts_sec := 0; Posix.ts_nsec := 50000000 |};
      Posix.EvNanosleep {| Posix.ts_sec := 0; Posix.ts_nsec := 25000000 |};
      Posix.EvNanosleep {| Posix.ts_sec := 0; Posix.ts_nsec := 12500000 |};
      Posix.EvNanosleep {| Posix.ts_sec := 0; Posix.ts_nsec := 6250000 |} ].

End Script.

(** ** Sequences of calls into the Windows half *)
Module WinApi.
Import Win.

(** What a client or the hint registry can do: call one of the five
    entry points, or (the registry) run the hint callback with an old
    value and a new hint. *)
Inductive op : Type :=
| OpTicksInit
| OpTicksQuit
| OpGetTicks
| OpGetPerformanceCounter
| OpGetPerformanceFrequency
| OpHintChanged (oldValue hint : cptr).

(** The call is [SDL_TicksQuit]. *)
Definition is_quit (o : op) : bool :=
  match o with OpTicksQuit => true | _ => false end.

(** Taking back a request of period [p] from those held; [None] when no
    such request is held. *)
Fixpoint give_back (p : Z) (l : list Z) : option (list Z) :=
  match l with
  | [] => None
  | q :: r => if q =? p then Some r else option_map (cons q) (give_back p r)
  end.

(** The timer-resolution requests a trace leaves with the operating
    system: [timeBeginPeriod] adds one, [timeEndPeriod] takes back one of
    the same period.  [None] once a [timeEndPeriod] has named a period
    that was not held. *)
Definition account (h : option (list Z)) (e : event) : option (list Z) :=
  match h with
  | None => None
  | Some l =>
      match e with
      | EvTimeBeginPeriod p => Some (p :: l)
      | EvTimeEndPeriod p => give_back p l
      | _ => Some l
      end
  end.

Definition held (tr : list event) : option (list Z) :=
  fold_left account tr (Some []).

(** Events that are neither [timeBeginPeriod] nor [timeEndPeriod]. *)
Definition quiet (e : event) : bool :=
  match e with
  | EvTimeBeginPeriod _ | EvTimeEndPeriod _ => false
  | _ => true
  end.

(** The request the globals say is held. *)
Definition recorded (g : globals) : list Z :=
  if timer_period g =? 0 then [] else [timer_period g].

Section WithOS.
Context {W : Type} {os : OS W}.

Definition step (o : op) (s : state W) : state W :=
  match o with
  | OpTicksInit => after (SDL_TicksInit s)
  | OpTicksQuit => after (SDL_TicksQuit s)
  | OpGetTicks => after (SDL_GetTicks s)
  | OpGetPerformanceCounter => after (SDL_GetPerformanceCounter s)
  | OpGetPerformanceFrequency => after (SDL_GetPerformanceFrequency s)
  | OpHintChanged oldValue hint =>
      after (SDL_TimerResolutionChanged 0 None oldValue hint s)
  end.

Definition run (ops : list op) (s : state W) : state W :=
  fold_left (fun s o => step o s) ops s.

(** The books are in order: what the trace leaves with the operating
    system is what [timer_period] records. *)
Definition balanced (s : state W) : Prop :=
  held (trace s) = Some (recorded (mem s)).

End WithOS.
End WinApi.

(** ** [SDL_Delay] of the Windows half

    The build modelled is again the desktop one, where [SDL_Delay] is
    the lazy initialisation followed by [Sleep(ms)]. *)
Module WinSleep.

(** The calls of the Windows half, with [Sleep] among them. *)
Inductive event : Type :=
| Earlier (e : Win.event)
| EvSleep (ms : Z).

Class OS (W : Type) : Type := {
  os_Sleep : Z -> W -> W
}.

Record state (W : Type) : Type := mkState {
  mem : Win.globals;
  world : W;
  trace : list event
}.
Arguments mkState {W} _ _ _.
Arguments mem {W} _.
Arguments world {W} _.
Arguments trace {W} _.

Section WithOS.
Context {W : Type} {os : Win.OS W} {sleeper : OS W}.

(** A function of the rest of the file, run here: it starts from the
    globals and the world, and what it logs is added to the trace. *)
Definition lift {A : Type} (m : M (Win.state W) A) : M (state W) A :=
  fun s =>
    let (a, s') := m (Win.mkState (mem s) (world s) []) in
    (a, mkState (Win.mem s') (Win.world s')
          (trace s ++ map Earlier (Win.trace s'))).

Definition get_mem : M (state W) Win.globals := fun s => (mem s, s).

Definition Sleep (ms : Z) : M (state W) unit :=
  fun s => (tt, mkState (mem s) (os_Sleep ms (world s)) (trace s ++ [EvSleep ms])).

(** [SDL_Delay] *)
Definition SDL_Delay (ms : Z) : M (state W) unit :=
  g <- get_mem ;;
  when (negb (Win.ticks_started g)) (lift Win.SDL_TicksInit) ;;;
  Sleep ms.

End WithOS.
End WinSleep.

(** ** Sequences of calls into the POSIX half *)
Module PosixApi.
Import Posix.

Inductive op : Type :=
| OpTicksInit
| OpTicksQuit
| OpGetTicks
| OpGetPerformanceCounter
| OpGetPerformanceFrequency
| OpDelay (fuel : nat) (ms : Z).

Definition is_quit (o : op) : bool :=
  match o with OpTicksQuit => true | _ => false end.

Section WithOS.
Context {W : Type} {os : OS W} {build : Build}.

(** One call; [None] when a delay has not ended within its bound. *)
Definition step (o : op) (s : state W) : option (state W) :=
  match o with
  | OpTicksInit => Some (after (SDL_TicksInit s))
  | OpTicksQuit => Some (after (SDL_TicksQuit s))
  | OpGetTicks => Some (after (SDL_GetTicks s))
  | OpGetPerformanceCounter => Some (after (SDL_GetPerformanceCounter s))
  | OpGetPerformanceFrequency => Some (after (SDL_GetPerformanceFrequency s))
  | OpDelay fuel ms => SDL_Delay fuel ms s
  end.

Fixpoint run (ops : list op) (s : state W) : option (state W) :=
  match ops with
  | [] => Some s
  | o :: rest =>
      match step o s with
      | Some s' => run rest s'
      | None => None
      end
  end.

(** The unwrapped milliseconds between the origin and the reading the
    selected clock is about to give, as [SDL_GetTicks] converts them. *)
Definition elapsed_ms (s : state W) : Z :=
  if has_monotonic_time (mem s)
  then ms_between_ts (start_ts (mem s))
         (snd (fst (os_clock_gettime (world s))))
  else ms_between_tv (start_tv (mem s)) (fst (os_gettimeofday (world s))).

(** A wall-clock reading in microseconds. *)
Definition tv_us (t : timeval) : Z := tv_sec t * 1000000 + tv_usec t.

(** The reading the selected clock is about to give and the origin kept
    for it, in the unit of that clock (nanoseconds of [clock_gettime],
    microseconds of [gettimeofday]), and that unit per millisecond. *)
Definition clock_units (s : state W) : Z :=
  if has_monotonic_time (mem s)
  then ts_ns (snd (fst (os_clock_gettime (world s))))
  else tv_us (fst (os_gettimeofday (world s))).

Definition origin_units (s : state W) : Z :=
  if has_monotonic_time (mem s)
  then ts_ns (start_ts (mem s))
  else tv_us (start_tv (mem s)).

Definition units_per_ms (s : state W) : Z :=
  if has_monotonic_time (mem s) then 1000000 else 1000.

(** Origin and readings have their sub-second fields in range. *)
Definition readable (s : state W) : Prop :=
  valid_ts (start_ts (mem s)) /\
  valid_tv (start_tv (mem s)) /\
  valid_ts (snd (fst (os_clock_gettime (world s)))) /\
  valid_tv (fst (os_gettimeofday (world s))).

End WithOS.
End PosixApi.

(** ** More scripted machines *)
Module Bench.
Import Script.

(** On the scripted Windows machine [Sleep] just returns. *)
#[export] Instance win_sleeper : WinSleep.OS win_world := {
  os_Sleep _ w := w
}.

Definition win_sleep_boot (w : win_world) : WinSleep.state win_world :=
  WinSleep.mkState Win.initial_globals w [].

(** A device under a storm of signals: every [nanosleep] is
    interrupted, and nothing is ever written back. *)
#[export] Instance storm_os : Posix.OS unit := {
  os_clock_gettime w := ((0, ts0), w);
  os_gettimeofday w := (tv0, w);
  os_nanosleep _ w :=
    ({| Posix.ns_ret := -1; Posix.ns_errno := Posix.EINTR;
        Posix.ns_rem := None |}, w)
}.

Definition storm_boot : Posix.state unit :=
  Posix.mkState Posix.initial_globals tt [].

(** The device with the monotonic clock once [SDL_TicksInit] has run on
    the 32-bit build, and after one reading of the ticks. *)
Definition px_started : Posix.state px_world :=
  after (@Posix.SDL_TicksInit _ _ android32 (px_boot monotonic_device)).

Definition px_read_once : Posix.state px_world :=
  after (@Posix.SDL_GetTicks _ _ android32 px_started).

(** The state a finished sequence of calls ends in. *)
Definition ended {St : Type} (r : option St) (otherwise : St) : St :=
  match r with Some s => s | None => otherwise end.

(** A session on that device: a query, a teardown, a query again and a
    short delay. *)
Definition px_session_calls : list PosixApi.op :=
  [ PosixApi.OpGetTicks; PosixApi.OpTicksQuit;
    PosixApi.OpGetPerformanceFrequency; PosixApi.OpDelay 5 50 ].

Definition px_session_end : Posix.state px_world :=
  ended (@PosixApi.run _ _ android32 px_session_calls
           (px_boot monotonic_device))
    (px_boot monotonic_device).

(** Calls within one epoch. *)
Definition px_epoch_calls : list PosixApi.op :=
  [ PosixApi.OpGetTicks; PosixApi.OpTicksInit; PosixApi.OpDelay 5 50;
    PosixApi.OpGetPerformanceCounter ].

Definition px_epoch_end : Posix.state px_world :=
  ended (@PosixApi.run _ _ android32 px_epoch_calls px_started) px_started.

(** A Windows machine with only [timeGetTime], whose readings pass
    [2^32]: origin at 4294967000, then 4294967290 and, 10 ms later,
    4 after the wrap. *)
Definition old_machine : win_world :=
  {| qpf_answer := (0, 0); qpc_rc := 0; qpc_readings := [];
     tgt_readings := [4294967000; 4294967290; 4];
     hint_call := Some (None, None) |}.

(** A machine whose registry hands over, at registration, a hint that
    parses to zero, with itself as old value. *)
Definition zero_hint_machine : win_world :=
  {| qpf_answer := (1, 10000000); qpc_rc := 1;
     qpc_readings := [500]; tgt_readings := [];
     hint_call := Some (hint_abc, hint_abc) |}.

(** A scripted Windows machine once [SDL_TicksInit] has run, and after
    one reading of the ticks. *)
Definition win_started (w : win_world) : Win.state win_world :=
  after (Win.SDL_TicksInit (win_boot w)).

Definition win_read_once (w : win_world) : Win.state win_world :=
  after (Win.SDL_GetTicks (win_started w)).

(** A session with hint changes, and calls within one epoch. *)
Definition win_session_calls : list WinApi.op :=
  [ WinApi.OpTicksInit; WinApi.OpHintChanged hint_5 hint_abc;
    WinApi.OpGetTicks; WinApi.OpHintChanged hint_abc hint_5;
    WinApi.OpTicksQuit; WinApi.OpGetPerformanceCounter ].

Definition win_epoch_calls : list WinApi.op :=
  [ WinApi.OpGetTicks; WinApi.OpHintChanged None hint_5;
    WinApi.OpGetPerformanceCounter; WinApi.OpTicksInit;
    WinApi.OpGetPerformanceFrequency ].







End Bench.

(** * Properties *)

(** ** The Windows half *)
Module WinFacts.
Import CInt Win Script.

Ltac run :=
  unfold SDL_TicksQuit, SDL_AddHintCallback, SDL_DelHintCallback,
    SDL_TimerResolutionChanged, SDL_SetSystemTimerResolution,
    QueryPerformanceFrequency, QueryPerformanceCounter, timeGetTime,
    timeBeginPeriod, timeEndPeriod, call_, call, update, get_mem,
    when, bind, ret, after, value in *; simpl in *.

Ltac answers :=
  repeat match goal with
  | |- context [let (_, _) := ?e in _] => destruct e as [? ?] eqn:?; simpl in *
  end.

Section WithOS.
Context {W : Type} {os : OS W}.

Lemma set_timer_period_same (g : globals) :
  set_timer_period (timer_period g) g = g.
Proof. destruct g; reflexivity. Qed.

Lemma SetSystemTimerResolution_run (p : Z) (s : state W) :
  SDL_SetSystemTimerResolution p s =
  (tt, if p =? timer_period (mem s) then s
       else mkState (set_timer_period p (mem s))
              (install_world p (release_world (timer_period (mem s)) (world s)))
              (trace s ++ released (timer_period (mem s)) ++ installed p)).
Proof.
  unfold released, installed, install_world, release_world. run.
  destruct (p =? timer_period (mem s)); simpl; [reflexivity|].
  destruct (timer_period (mem s) =? 0); simpl;
    destruct (p =? 0); simpl; rewrite <- ?app_assoc, ?app_nil_r; reflexivity.
Qed.

(** C5.  [SDL_SetSystemTimerResolution] called with the period already
    recorded changes nothing and calls nothing.  Called with another
    period it records the new period, and the calls it adds to the trace
    are [timeEndPeriod] of the old period if that was not zero, followed
    by [timeBeginPeriod] of the new period if that is not zero: the
    release always comes before the install. *)
Theorem set_timer_resolution_release_then_install (p : Z) (s : state W) :
  (p = timer_period (mem s) ->
   SDL_SetSystemTimerResolution p s = (tt, s)) /\
  (p <> timer_period (mem s) ->
   let s' := after (SDL_SetSystemTimerResolution p s) in
   mem s' = set_timer_period p (mem s) /\
   timer_period (mem s') = p /\
   trace s' =
     trace s
     ++ (if timer_period (mem s) =? 0 then []
         else [EvTimeEndPeriod (timer_period (mem s))])
     ++ (if p =? 0 then [] else [EvTimeBeginPeriod p]) /\
   world s' =
     install_world p (release_world (timer_period (mem s)) (world s))).
Proof.
  rewrite SetSystemTimerResolution_run. split; intro H.
  - apply Z.eqb_eq in H. rewrite H. reflexivity.
  - apply Z.eqb_neq in H. unfold after. simpl. rewrite H. simpl.
    repeat split.
Qed.

Lemma SetSystemTimerResolution_mem (p : Z) (s : state W) :
  mem (after (SDL_SetSystemTimerResolution p s)) = set_timer_period p (mem s).
Proof.
  rewrite SetSystemTimerResolution_run. unfold after. simpl.
  destruct (Z.eqb_spec p (timer_period (mem s))) as [->|]; simpl;
    auto using eq_sym, set_timer_period_same.
Qed.

Lemma TimerResolutionChanged_run (ud : Z) (name old hint : cptr) (s : state W) :
  SDL_TimerResolutionChanged ud name old hint s =
  if negb (hint_period hint =? 0) || negb (cptr_eqb old hint)
  then SDL_SetSystemTimerResolution (hint_period hint) s
  else (tt, s).
Proof.
  unfold SDL_TimerResolutionChanged. fold (hint_period hint).
  destruct (negb (hint_period hint =? 0) || negb (cptr_eqb old hint));
    reflexivity.
Qed.

Lemma TimerResolutionChanged_mem (ud : Z) (name old hint : cptr) (s : state W) :
  exists q,
    mem (after (SDL_TimerResolutionChanged ud name old hint s))
    = set_timer_period q (mem s).
Proof.
  rewrite TimerResolutionChanged_run.
  destruct (negb (hint_period hint =? 0) || negb (cptr_eqb old hint)).
  - eexists. apply SetSystemTimerResolution_mem.
  - exists (timer_period (mem s)). symmetry. apply set_timer_period_same.
Qed.

(** C4, as the code has it.  With no hint or an empty one the callback
    asks for period 1.  With a non-empty hint it asks for the parsed
    number (as a [UINT]) whenever that number is not zero or the hint is
    not the very pointer passed as old value; a hint that parses to zero
    and is the same pointer as the old value makes no request at all.
    The text 5 parses to 5 and the text abc to 0. *)
Theorem resolution_hint_policy :
  (forall ud name old hint (s : state W),
     nonempty hint = false ->
     SDL_TimerResolutionChanged ud name old hint s
     = SDL_SetSystemTimerResolution 1 s) /\
  (forall ud name old hint (s : state W),
     nonempty hint = true ->
     u32 (SDL_atoi (chars hint)) <> 0 \/ cptr_eqb old hint = false ->
     SDL_TimerResolutionChanged ud name old hint s
     = SDL_SetSystemTimerResolution (u32 (SDL_atoi (chars hint))) s) /\
  (forall ud name old hint (s : state W),
     nonempty hint = true ->
     u32 (SDL_atoi (chars hint)) = 0 ->
     cptr_eqb old hint = true ->
     SDL_TimerResolutionChanged ud name old hint s = (tt, s)) /\
  SDL_atoi "5" = 5 /\ SDL_atoi "abc" = 0.
Proof.
  repeat split; try reflexivity; intros ud name old hint s Hne.
  - rewrite TimerResolutionChanged_run. unfold hint_period. rewrite Hne.
    reflexivity.
  - intros Hreq. rewrite TimerResolutionChanged_run. unfold hint_period.
    rewrite Hne. destruct Hreq as [Hp | Hq].
    + apply Z.eqb_neq in Hp. rewrite Hp. reflexivity.
    + rewrite Hq, orb_true_r. reflexivity.
  - intros Hz Heq. rewrite TimerResolutionChanged_run. unfold hint_period.
    rewrite Hne, Hz, Heq. reflexivity.
Qed.

Lemma AddHintCallback_mem (s : state W) :
  exists q, mem (after (SDL_AddHintCallback s)) = set_timer_period q (mem s).
Proof.
  unfold SDL_AddHintCallback, bind, call, after.
  destruct (os_AddHintCallback (world s)) as [[[old hint]|] w]; simpl.
  - apply (TimerResolutionChanged_mem 0 None old hint
             (mkState (mem s) w (trace s ++ [EvAddHintCallback]))).
  - exists (timer_period (mem s)). symmetry. apply set_timer_period_same.
Qed.

Lemma registered_mem (s : state W) :
  exists q,
    mem (registered s) = set_timer_period q (set_ticks_started true (mem s)).
Proof.
  unfold registered.
  destruct (AddHintCallback_mem
              (mkState (set_ticks_started true (mem s)) (world s) (trace s)))
    as [q Hq].
  exists q. exact Hq.
Qed.

Lemma win_TicksInit_started (s : state W) :
  ticks_started (mem s) = true -> SDL_TicksInit s = (tt, s).
Proof.
  intro H. unfold SDL_TicksInit, bind, get_mem. rewrite H. reflexivity.
Qed.

(** What [SDL_TicksInit] does when the flag is not set. *)
Lemma win_TicksInit_fresh (s : state W) :
  ticks_started (mem s) = false ->
  after (SDL_TicksInit s) =
  let s1 := registered s in
  let f := os_QueryPerformanceFrequency (world s1) in
  let g1 := set_hires_ticks_per_second (snd (fst f)) (mem s1) in
  if fst (fst f) =? 1 then
    let c := os_QueryPerformanceCounter (snd f) in
    mkState (set_hires_start_ticks (snd (fst c))
               (set_hires_timer_available true g1))
      (snd c)
      ((trace s1 ++ [EvQueryPerformanceFrequency])
       ++ [EvQueryPerformanceCounter])
  else
    let t := os_timeGetTime (snd f) in
    mkState (set_start (fst t) (set_hires_timer_available false g1))
      (snd t)
      ((trace s1 ++ [EvQueryPerformanceFrequency]) ++ [EvTimeGetTime]).
Proof.
  intro H. unfold SDL_TicksInit, registered.
  unfold bind at 1. unfold get_mem at 1. rewrite H.
  unfold bind at 1. unfold update at 1.
  unfold bind at 1. unfold after at 1.
  destruct (SDL_AddHintCallback
              (mkState (set_ticks_started true (mem s)) (world s) (trace s)))
    as [[] s1].
  unfold after. simpl. run.
  destruct (os_QueryPerformanceFrequency (world s1)) as [[rc f] w2]. simpl.
  destruct (rc =? 1); simpl.
  - destruct (os_QueryPerformanceCounter w2) as [[rc' c] w3]. reflexivity.
  - destruct (os_timeGetTime w2) as [t w3]. reflexivity.
Qed.

Lemma win_TicksInit_sets_started (s : state W) :
  ticks_started (mem (after (SDL_TicksInit s))) = true.
Proof.
  destruct (ticks_started (mem s)) eqn:H.
  - rewrite (win_TicksInit_started s H). exact H.
  - rewrite (win_TicksInit_fresh s H). simpl.
    destruct (registered_mem s) as [q Hq].
    destruct (fst (fst (os_QueryPerformanceFrequency (world (registered s)))) =? 1);
      simpl; rewrite Hq; reflexivity.
Qed.

Lemma win_GetTicks_run (s : state W) :
  SDL_GetTicks s = ticks_now (after (SDL_TicksInit s)).
Proof.
  unfold SDL_GetTicks, ticks_now.
  unfold bind at 1. unfold get_mem at 1.
  destruct (ticks_started (mem s)) eqn:H; simpl.
  - rewrite (win_TicksInit_started s H). run.
    destruct (hires_timer_available (mem s)).
    + destruct (os_QueryPerformanceCounter (world s)) as [[rc c] w1].
      reflexivity.
    + destruct (os_timeGetTime (world s)) as [t w1]. reflexivity.
  - unfold bind at 1. unfold after.
    destruct (SDL_TicksInit s) as [[] s1]. run.
    destruct (hires_timer_available (mem s1)).
    + destruct (os_QueryPerformanceCounter (world s1)) as [[rc c] w1].
      reflexivity.
    + destruct (os_timeGetTime (world s1)) as [t w1]. reflexivity.
Qed.

(** The state after a call of [QueryPerformanceCounter]. *)
Lemma win_GetPerformanceCounter_run (s : state W) :
  SDL_GetPerformanceCounter s =
  let c := os_QueryPerformanceCounter (world s) in
  let s1 := mkState (mem s) (snd c) (trace s ++ [EvQueryPerformanceCounter]) in
  if fst (fst c) =? 0
  then (u64 (value (SDL_GetTicks s1)), after (SDL_GetTicks s1))
  else (u64 (snd (fst c)), s1).
Proof.
  unfold SDL_GetPerformanceCounter, value, after.
  unfold bind at 1. unfold QueryPerformanceCounter, call.
  destruct (os_QueryPerformanceCounter (world s)) as [[rc c] w1]. simpl.
  destruct (rc =? 0); [|reflexivity].
  unfold bind.
  destruct (SDL_GetTicks (mkState (mem s) w1
                            (trace s ++ [EvQueryPerformanceCounter])))
    as [t s2].
  reflexivity.
Qed.

Lemma win_GetPerformanceFrequency_run (s : state W) :
  SDL_GetPerformanceFrequency s =
  let f := os_QueryPerformanceFrequency (world s) in
  (if fst (fst f) =? 0 then 1000 else u64 (snd (fst f)),
   mkState (mem s) (snd f) (trace s ++ [EvQueryPerformanceFrequency])).
Proof.
  unfold SDL_GetPerformanceFrequency. run.
  destruct (os_QueryPerformanceFrequency (world s)) as [[rc f] w1]. simpl.
  destruct (rc =? 0); reflexivity.
Qed.

Lemma TicksQuit_run (s : state W) :
  after (SDL_TicksQuit s) =
  let s1 := mkState (mem s) (os_DelHintCallback (world s))
              (trace s ++ [EvDelHintCallback]) in
  let old := timer_period (mem s) in
  mkState (set_ticks_started false (set_start 0 (set_timer_period 0 (mem s))))
    (install_world 0 (release_world old (world s1)))
    (trace s1 ++ released old).
Proof.
  unfold SDL_TicksQuit. unfold bind at 1.
  unfold SDL_DelHintCallback, call_, call. simpl.
  unfold bind at 1. rewrite SetSystemTimerResolution_run. simpl.
  assert (Hsame : timer_period (mem s) = 0 ->
                  set_timer_period 0 (mem s) = mem s).
  { intro E. rewrite <- E. apply set_timer_period_same. }
  unfold released, installed, install_world, release_world.
  destruct (timer_period (mem s)); run; rewrite ?app_nil_r;
    rewrite ?Hsame by reflexivity; reflexivity.
Qed.

Lemma win_TicksInit_origin (s : state W) :
  ticks_started (mem s) = false ->
  origin_captured s (after (SDL_TicksInit s)).
Proof.
  intro H. rewrite (win_TicksInit_fresh s H). unfold origin_captured. cbv zeta.
  destruct (fst (fst (os_QueryPerformanceFrequency (world (registered s)))) =? 1);
    simpl; split; reflexivity.
Qed.

Lemma win_ticks_at_origin (s : state W) :
  reads_origin s -> value (ticks_now s) = 0.
Proof.
  unfold reads_origin, ticks_now, value. cbv zeta.
  destruct (hires_timer_available (mem s)); simpl; intros ->;
    rewrite Z.sub_diag; reflexivity.
Qed.

Lemma u32_range (z : Z) : 0 <= u32 z < 2 ^ 32.
Proof. unfold u32. apply Z.mod_pos_bound. reflexivity. Qed.

Lemma u64_u32 (z : Z) : u64 (u32 z) = u32 z.
Proof.
  unfold u64. apply Z.mod_small. pose proof (u32_range z) as H.
  change (2 ^ 32) with 4294967296 in H.
  change (2 ^ 64) with 18446744073709551616. lia.
Qed.

End WithOS.

Lemma set_timer_resolution_release_then_install_witness :
  SDL_SetSystemTimerResolution 5 holding_5 = (tt, holding_5) /\
  trace (after (SDL_SetSystemTimerResolution 1 holding_5))
  = [EvTimeEndPeriod 5; EvTimeBeginPeriod 1].
Proof.
  split.
  - apply (proj1 (set_timer_resolution_release_then_install 5 holding_5)).
    reflexivity.
  - apply (proj2 (set_timer_resolution_release_then_install 1 holding_5)).
    discriminate.
Defined.

(** C4 as the spec words it fails: the hint abc, passed with itself as
    old value to a machine holding a request, asks for nothing, where a
    request of period 0 would have released the period held. *)
Lemma resolution_hint_abc_same_pointer_no_request :
  nonempty hint_abc = true /\
  SDL_TimerResolutionChanged 0 None hint_abc hint_abc holding_5
  = (tt, holding_5) /\
  SDL_TimerResolutionChanged 0 None hint_abc hint_abc holding_5
  <> SDL_SetSystemTimerResolution (u32 (SDL_atoi (chars hint_abc))) holding_5.
Proof.
  split; [reflexivity|]. split; [reflexivity|]. vm_compute. discriminate.
Qed.

Lemma resolution_hint_policy_witness :
  SDL_TimerResolutionChanged 0 None None None holding_5
  = SDL_SetSystemTimerResolution 1 holding_5 /\
  SDL_TimerResolutionChanged 0 None None hint_empty holding_5
  = SDL_SetSystemTimerResolution 1 holding_5 /\
  SDL_TimerResolutionChanged 0 None None hint_5 holding_5
  = SDL_SetSystemTimerResolution (u32 (SDL_atoi (chars hint_5))) holding_5 /\
  SDL_TimerResolutionChanged 0 None hint_abc hint_abc holding_5
  = (tt, holding_5).
Proof.
  destruct (@resolution_hint_policy Script.win_world Script.win_os)
    as (Habsent & Hrequest & Hsilent & _).
  split; [|split; [|split]].
  - apply Habsent. reflexivity.
  - apply Habsent. reflexivity.
  - apply Hrequest; [reflexivity|]. left. vm_compute. discriminate.
  - apply Hsilent; reflexivity.
Defined.

End WinFacts.

(** ** The POSIX half *)
Module PosixFacts.
Import CInt Posix Script.

Ltac run :=
  unfold SDL_TicksQuit, clock_gettime, gettimeofday, nanosleep,
    call, update, get_mem, when, bind, ret, after, value in *; simpl in *.

Ltac pow2 :=
  change (2 ^ 32) with 4294967296 in *;
  change (2 ^ 64) with 18446744073709551616 in *;
  change (2 ^ (32 - 1)) with 2147483648 in *;
  change (2 ^ (64 - 1)) with 9223372036854775808 in *.

(** *** Arithmetic in [long] seen through the conversion to [Uint32] *)

Lemma u32_sint32 (z : Z) : u32 (sint 32 z) = u32 z.
Proof. unfold u32, sint. pow2. Z.div_mod_to_equations. lia. Qed.

Lemma u32_sint64 (z : Z) : u32 (sint 64 z) = u32 z.
Proof. unfold u32, sint. pow2. Z.div_mod_to_equations. lia. Qed.

Lemma u32_add (a b : Z) : u32 (u32 a + u32 b) = u32 (a + b).
Proof. unfold u32. symmetry. apply Zplus_mod. Qed.

Lemma u32_mul (a b : Z) : u32 (u32 a * u32 b) = u32 (a * b).
Proof. unfold u32. symmetry. apply Zmult_mod. Qed.

Lemma u32_idem (a : Z) : u32 (u32 a) = u32 a.
Proof. unfold u32. apply Zmod_mod. Qed.

Lemma sint32_small (z : Z) : - 2 ^ 31 <= z < 2 ^ 31 -> sint 32 z = z.
Proof.
  unfold sint. pow2. change (2 ^ 31) with 2147483648.
  intros. Z.div_mod_to_equations. lia.
Qed.

Lemma sint64_small (z : Z) : - 2 ^ 63 <= z < 2 ^ 63 -> sint 64 z = z.
Proof.
  unfold sint. pow2. change (2 ^ 63) with 9223372036854775808.
  intros. Z.div_mod_to_equations. lia.
Qed.

Section WithOS.
Context {W : Type} {os : OS W} {build : Build}.

Lemma u32_long (z : Z) : u32 (long z) = u32 z.
Proof.
  unfold long. destruct target_abi; simpl; [apply u32_sint32 | apply u32_sint64].
Qed.

Lemma long_small (z : Z) : - 2 ^ 31 <= z < 2 ^ 31 -> long z = z.
Proof.
  intro H. unfold long. destruct target_abi; simpl.
  - apply sint32_small, H.
  - apply sint64_small. change (2 ^ 31) with 2147483648 in H.
    change (2 ^ 63) with 9223372036854775808. lia.
Qed.

(** The expression of [SDL_GetTicks], whatever the width of [long]: when
    the two sub-second fields differ by less than [2^31], the value is the
    unwrapped difference in milliseconds reduced modulo [2^32]. *)
Lemma ticks_expression (sec0 sec1 sub0 sub1 per_ms : Z) :
  0 < per_ms ->
  - 2 ^ 31 <= sub1 - sub0 < 2 ^ 31 ->
  u32 (long (long (long (sec1 - sec0) * 1000)
             + long (Z.quot (long (sub1 - sub0)) per_ms)))
  = u32 ((sec1 - sec0) * 1000 + Z.quot (sub1 - sub0) per_ms).
Proof.
  intros Hp Hsub.
  rewrite u32_long, <- u32_add, !u32_long, <- u32_mul, u32_long, u32_mul.
  rewrite (long_small (sub1 - sub0)) by exact Hsub.
  rewrite u32_add. reflexivity.
Qed.

(** *** Initialisation *)

Lemma posix_TicksInit_started (s : state W) :
  ticks_started (mem s) = true -> SDL_TicksInit s = (tt, s).
Proof.
  intro H. unfold SDL_TicksInit, bind, get_mem. rewrite H. reflexivity.
Qed.

(** What [SDL_TicksInit] does when the flag is not set. *)
Lemma posix_TicksInit_fresh (s : state W) :
  ticks_started (mem s) = false ->
  after (SDL_TicksInit s) =
  let g0 := set_ticks_started true (mem s) in
  if HAVE_CLOCK_GETTIME then
    let r := os_clock_gettime (world s) in
    let g1 := set_start_ts (snd (fst r)) g0 in
    if fst (fst r) =? 0 then
      mkState (set_has_monotonic_time true g1) (snd r)
        (trace s ++ [EvClockGettime])
    else
      let t := os_gettimeofday (snd r) in
      mkState (set_start_tv (fst t) g1) (snd t)
        ((trace s ++ [EvClockGettime]) ++ [EvGettimeofday])
  else
    let t := os_gettimeofday (world s) in
    mkState (set_start_tv (fst t) g0) (snd t) (trace s ++ [EvGettimeofday]).
Proof.
  intro H. unfold SDL_TicksInit. run. rewrite H. simpl.
  destruct HAVE_CLOCK_GETTIME; simpl.
  - destruct (os_clock_gettime (world s)) as [[rc ts] w1]. simpl.
    destruct (rc =? 0); simpl; [reflexivity|].
    destruct (os_gettimeofday w1) as [tv w2]. reflexivity.
  - destruct (os_gettimeofday (world s)) as [tv w1]. reflexivity.
Qed.

Lemma posix_TicksInit_sets_started (s : state W) :
  ticks_started (mem (after (SDL_TicksInit s))) = true.
Proof.
  destruct (ticks_started (mem s)) eqn:H.
  - rewrite (posix_TicksInit_started s H). exact H.
  - rewrite (posix_TicksInit_fresh s H). simpl.
    destruct HAVE_CLOCK_GETTIME; [|reflexivity].
    destruct (fst (fst (os_clock_gettime (world s))) =? 0); reflexivity.
Qed.

(** The monotonic clock is never selected by a build without it. *)
Lemma TicksInit_consistent (s : state W) :
  consistent (mem s) -> consistent (mem (after (SDL_TicksInit s))).
Proof.
  unfold consistent. intro Hc.
  destruct (ticks_started (mem s)) eqn:H.
  - rewrite (posix_TicksInit_started s H). exact Hc.
  - rewrite (posix_TicksInit_fresh s H). simpl.
    destruct HAVE_CLOCK_GETTIME; [reflexivity|]. simpl. exact Hc.
Qed.

(** *** The queries *)

Lemma posix_GetTicks_run (s : state W) :
  SDL_GetTicks s = ticks_now (after (SDL_TicksInit s)).
Proof.
  unfold SDL_GetTicks, ticks_now.
  unfold bind at 1. unfold get_mem at 1.
  destruct (ticks_started (mem s)) eqn:H; simpl.
  - rewrite (posix_TicksInit_started s H). run.
    destruct (has_monotonic_time (mem s)).
    + destruct HAVE_CLOCK_GETTIME; [|reflexivity].
      destruct (os_clock_gettime (world s)) as [[rc ts] w1]. reflexivity.
    + destruct (os_gettimeofday (world s)) as [tv w1]. reflexivity.
  - unfold bind at 1. unfold after.
    destruct (SDL_TicksInit s) as [[] s1]. run.
    destruct (has_monotonic_time (mem s1)).
    + destruct HAVE_CLOCK_GETTIME; [|reflexivity].
      destruct (os_clock_gettime (world s1)) as [[rc ts] w1]. reflexivity.
    + destruct (os_gettimeofday (world s1)) as [tv w1]. reflexivity.
Qed.

Lemma posix_GetPerformanceCounter_run (s : state W) :
  SDL_GetPerformanceCounter s = counter_now (after (SDL_TicksInit s)).
Proof.
  unfold SDL_GetPerformanceCounter, counter_now.
  unfold bind at 1. unfold get_mem at 1.
  destruct (ticks_started (mem s)) eqn:H; simpl.
  - rewrite (posix_TicksInit_started s H). run.
    destruct (has_monotonic_time (mem s)).
    + destruct HAVE_CLOCK_GETTIME; [|reflexivity].
      destruct (os_clock_gettime (world s)) as [[rc ts] w1]. reflexivity.
    + destruct (os_gettimeofday (world s)) as [tv w1]. reflexivity.
  - unfold bind at 1. unfold after.
    destruct (SDL_TicksInit s) as [[] s1]. run.
    destruct (has_monotonic_time (mem s1)).
    + destruct HAVE_CLOCK_GETTIME; [|reflexivity].
      destruct (os_clock_gettime (world s1)) as [[rc ts] w1]. reflexivity.
    + destruct (os_gettimeofday (world s1)) as [tv w1]. reflexivity.
Qed.

Lemma posix_GetPerformanceFrequency_run (s : state W) :
  SDL_GetPerformanceFrequency s =
  let s1 := after (SDL_TicksInit s) in
  (if has_monotonic_time (mem s1) && HAVE_CLOCK_GETTIME
   then 1000000000 else 1000000, s1).
Proof.
  unfold SDL_GetPerformanceFrequency.
  unfold bind at 1. unfold get_mem at 1.
  destruct (ticks_started (mem s)) eqn:H; simpl.
  - rewrite (posix_TicksInit_started s H). run.
    destruct (has_monotonic_time (mem s)); [|reflexivity].
    destruct HAVE_CLOCK_GETTIME; reflexivity.
  - unfold bind at 1. unfold after.
    destruct (SDL_TicksInit s) as [[] s1]. run.
    destruct (has_monotonic_time (mem s1)); [|reflexivity].
    destruct HAVE_CLOCK_GETTIME; reflexivity.
Qed.

Lemma posix_TicksInit_origin (s : state W) :
  ticks_started (mem s) = false ->
  origin_captured s (after (SDL_TicksInit s)).
Proof.
  intro H. rewrite (posix_TicksInit_fresh s H). unfold origin_captured. cbv zeta.
  destruct HAVE_CLOCK_GETTIME; [|split; reflexivity].
  destruct (fst (fst (os_clock_gettime (world s))) =? 0); simpl;
    split; reflexivity.
Qed.

Lemma posix_TicksInit_origin_in_use (s : state W) :
  ticks_started (mem s) = false ->
  clock_still_answers s ->
  origin_in_use_is_fresh s (after (SDL_TicksInit s)).
Proof.
  intros H Hclock. rewrite (posix_TicksInit_fresh s H).
  unfold origin_in_use_is_fresh, clock_still_answers in *. cbv zeta.
  destruct HAVE_CLOCK_GETTIME.
  - destruct (fst (fst (os_clock_gettime (world s))) =? 0) eqn:Hrc; simpl;
      [reflexivity|].
    destruct (has_monotonic_time (mem s)); [|reflexivity].
    destruct (Hclock eq_refl) as [_ Hok]. rewrite Hok in Hrc. discriminate.
  - simpl. destruct (has_monotonic_time (mem s)); [|reflexivity].
    destruct (Hclock eq_refl) as [Hhave _]. discriminate.
Qed.

Lemma long_0 : long 0 = 0.
Proof. unfold long. destruct target_abi; reflexivity. Qed.

Lemma posix_ticks_at_origin (s : state W) :
  reads_origin s -> value (ticks_now s) = 0.
Proof.
  unfold reads_origin, ticks_now, value. cbv zeta.
  destruct (has_monotonic_time (mem s)).
  - destruct HAVE_CLOCK_GETTIME; [|reflexivity]. simpl. intros ->.
    rewrite !Z.sub_diag, !long_0. change (0 ÷ 1000000) with 0.
    change (0 * 1000) with 0. rewrite !long_0. change (0 + 0) with 0.
    rewrite long_0. reflexivity.
  - simpl. intros ->.
    rewrite !Z.sub_diag, !long_0. change (0 ÷ 1000) with 0.
    change (0 * 1000) with 0. rewrite !long_0. change (0 + 0) with 0.
    rewrite long_0. reflexivity.
Qed.

(** *** The delay loop *)

Lemma delay_turn_run (tv : timespec) (s : state W) :
  delay_turn tv s =
  let r := os_nanosleep tv (world s) in
  ((interrupted (fst r),
    match ns_rem (fst r) with Some rem => rem | None => tv end),
   mkState (mem s) (snd r) (trace s ++ [EvNanosleep tv])).
Proof.
  unfold delay_turn. run.
  destruct (os_nanosleep tv (world s)) as [r w1]. reflexivity.
Qed.

Lemma delay_loop_step (fuel : nat) (tv : timespec) (s : state W) :
  delay_loop (S fuel) tv s =
  let r := os_nanosleep tv (world s) in
  let s1 := mkState (mem s) (snd r) (trace s ++ [EvNanosleep tv]) in
  if interrupted (fst r)
  then delay_loop fuel
         (match ns_rem (fst r) with Some rem => rem | None => tv end) s1
  else Some s1.
Proof. simpl. rewrite delay_turn_run. reflexivity. Qed.

(** A run that ends has gone through a chain of sleeps, has logged
    exactly those, and has left the globals alone. *)
Lemma delay_loop_sleeps (fuel : nat) :
  forall (tv : timespec) (s s' : state W),
    delay_loop fuel tv s = Some s' ->
    exists tvs,
      sleeps (world s) tv tvs (world s') /\
      trace s' = trace s ++ map EvNanosleep tvs /\
      mem s' = mem s.
Proof.
  induction fuel as [|fuel IH]; intros tv s s' Hrun; [discriminate|].
  rewrite delay_loop_step in Hrun. cbv zeta in Hrun.
  destruct (os_nanosleep tv (world s)) as [r w1] eqn:Hos. simpl in Hrun.
  destruct (interrupted r) eqn:Hint.
  - apply IH in Hrun. destruct Hrun as (tvs & Hsl & Htr & Hmem).
    simpl in *. exists (tv :: tvs). repeat split.
    + eapply sleeps_again; eauto.
    + rewrite Htr, <- app_assoc. reflexivity.
    + exact Hmem.
  - injection Hrun as <-. simpl. exists [tv]. repeat split.
    eapply sleeps_done; eauto.
Qed.

Lemma delay_loop_more_fuel (fuel : nat) :
  forall (tv : timespec) (s s' : state W) (fuel' : nat),
    delay_loop fuel tv s = Some s' ->
    (fuel <= fuel')%nat ->
    delay_loop fuel' tv s = Some s'.
Proof.
  induction fuel as [|fuel IH]; intros tv s s' fuel' Hrun Hle; [discriminate|].
  destruct fuel' as [|fuel']; [lia|].
  rewrite delay_loop_step in *. cbv zeta in *.
  destruct (interrupted (fst (os_nanosleep tv (world s)))).
  - eapply IH; [exact Hrun | lia].
  - exact Hrun.
Qed.

(** With interruptions that shorten the remaining time, a request of at
    most [n] nanoseconds is through after at most [n + 1] turns. *)
Lemma delay_loop_terminates (Hdec : interruptions_decrease) (n : nat) :
  forall (tv : timespec) (s : state W),
    ts_ns tv <= Z.of_nat n ->
    exists s', delay_loop (S n) tv s = Some s'.
Proof.
  induction n as [|n IH]; intros tv s Hle; rewrite delay_loop_step; cbv zeta;
    destruct (interrupted (fst (os_nanosleep tv (world s)))) eqn:Hint;
    try (eexists; reflexivity);
    destruct (Hdec tv (world s) Hint) as (rem & Hrem & Hlt).
  - lia.
  - rewrite Hrem. apply IH. lia.
Qed.

Lemma first_request (ms : Z) :
  0 <= ms < 2 ^ 32 ->
  u32 ((ms mod 1000) * 1000000) = (ms mod 1000) * 1000000.
Proof.
  intro H. unfold u32. apply Z.mod_small.
  change (2 ^ 32) with 4294967296.
  pose proof (Z.mod_pos_bound ms 1000). lia.
Qed.

Lemma first_request_ns (ms : Z) :
  0 <= ms < 2 ^ 32 ->
  ts_ns {| ts_sec := ms / 1000; ts_nsec := u32 ((ms mod 1000) * 1000000) |}
  = ms * 1000000.
Proof.
  intro H. unfold ts_ns. simpl. rewrite first_request by exact H.
  pose proof (Z.div_mod ms 1000). lia.
Qed.

(** C3.  Each turn of the loop in [SDL_Delay] sleeps for the current
    [elapsed]; when [nanosleep] reports an error with [errno == EINTR]
    the next turn sleeps for exactly what [nanosleep] wrote back, and any
    other outcome (success, or an error that is not an interruption) ends
    the call at once.  No clock is read: a finished call has added
    nothing but its chain of [nanosleep] requests to the trace.  When
    every interruption leaves a remaining time strictly shorter than the
    one asked for, the call ends, within [ms * 1000000 + 1] turns. *)
Theorem delay_resleeps_remaining_and_terminates :
  (forall fuel tv (s : state W),
     interrupted (fst (os_nanosleep tv (world s))) = true ->
     delay_loop (S fuel) tv s =
     delay_loop fuel
       (match ns_rem (fst (os_nanosleep tv (world s))) with
        | Some rem => rem
        | None => tv
        end)
       (mkState (mem s) (snd (os_nanosleep tv (world s)))
          (trace s ++ [EvNanosleep tv]))) /\
  (forall fuel tv (s : state W),
     ns_ret (fst (os_nanosleep tv (world s))) = 0 \/
     ns_errno (fst (os_nanosleep tv (world s))) <> EINTR ->
     delay_loop (S fuel) tv s =
     Some (mkState (mem s) (snd (os_nanosleep tv (world s)))
             (trace s ++ [EvNanosleep tv]))) /\
  (forall fuel ms (s s' : state W),
     0 <= ms < 2 ^ 32 ->
     SDL_Delay fuel ms s = Some s' ->
     exists tvs,
       sleeps (world s)
         {| ts_sec := ms / 1000; ts_nsec := (ms mod 1000) * 1000000 |}
         tvs (world s') /\
       trace s' = trace s ++ map EvNanosleep tvs) /\
  (forall ms (s : state W),
     0 <= ms < 2 ^ 32 ->
     interruptions_decrease ->
     exists s',
       forall fuel,
         (Z.to_nat (ms * 1000000) < fuel)%nat ->
         SDL_Delay fuel ms s = Some s').
Proof.
  split; [|split; [|split]].
  - intros fuel tv s Hint. rewrite delay_loop_step. cbv zeta.
    rewrite Hint. reflexivity.
  - intros fuel tv s Hout. rewrite delay_loop_step. cbv zeta.
    replace (interrupted (fst (os_nanosleep tv (world s)))) with false;
      [reflexivity|].
    unfold interrupted. destruct Hout as [H0 | He].
    + rewrite H0. reflexivity.
    + apply Z.eqb_neq in He. rewrite He. symmetry. apply andb_false_r.
  - intros fuel ms s s' Hms Hrun. unfold SDL_Delay in Hrun.
    rewrite first_request in Hrun by exact Hms.
    apply delay_loop_sleeps in Hrun. destruct Hrun as (tvs & Hsl & Htr & _).
    exists tvs. split; assumption.
  - intros ms s Hms Hdec.
    destruct (delay_loop_terminates Hdec (Z.to_nat (ms * 1000000))
                {| ts_sec := ms / 1000;
                   ts_nsec := u32 ((ms mod 1000) * 1000000) |} s)
      as [s' Hs'].
    + rewrite first_request_ns by exact Hms. lia.
    + exists s'. intros fuel Hfuel. unfold SDL_Delay.
      eapply delay_loop_more_fuel; [exact Hs' | lia].
Qed.

Lemma delay_loop_frame (fuel : nat) :
  forall (tv : timespec) (g : globals) (s : state W),
    delay_loop fuel tv (with_mem g s)
    = option_map (with_mem g) (delay_loop fuel tv s).
Proof.
  induction fuel as [|fuel IH]; intros tv g s; [reflexivity|].
  rewrite !delay_loop_step. cbv zeta. simpl.
  destruct (interrupted (fst (os_nanosleep tv (world s)))).
  - apply (IH _ g (mkState (mem s) (snd (os_nanosleep tv (world s)))
                     (trace s ++ [EvNanosleep tv]))).
  - reflexivity.
Qed.

(** C10.  [SDL_Delay] leaves every global as it found it: the flag
    [ticks_started], the origins [start_ts] and [start_tv], and
    [has_monotonic_time].  It does not read them either: run from a state
    with other globals it does the same sleeps and ends in the same world
    and trace, so a delay before initialisation does not initialise and
    behaves as one after it. *)
Theorem delay_frames_time_source :
  (forall fuel ms (s s' : state W),
     SDL_Delay fuel ms s = Some s' ->
     mem s' = mem s /\
     ticks_started (mem s') = ticks_started (mem s) /\
     start_ts (mem s') = start_ts (mem s) /\
     start_tv (mem s') = start_tv (mem s) /\
     has_monotonic_time (mem s') = has_monotonic_time (mem s)) /\
  (forall fuel ms (g : globals) (s : state W),
     SDL_Delay fuel ms (with_mem g s)
     = option_map (with_mem g) (SDL_Delay fuel ms s)).
Proof.
  split.
  - intros fuel ms s s' Hrun. unfold SDL_Delay in Hrun.
    apply delay_loop_sleeps in Hrun. destruct Hrun as (tvs & _ & _ & Hmem).
    rewrite Hmem. repeat split.
  - intros fuel ms g s. unfold SDL_Delay. apply delay_loop_frame.
Qed.

End WithOS.

(** The scripted device interrupts a sleep only to leave half of it. *)
Lemma px_interruptions_decrease : @interruptions_decrease px_world px_os.
Proof.
  intros tv w Hint. simpl in *. unfold px_sleep in *.
  destruct (signals w); [discriminate|].
  destruct (0 <? ts_ns tv) eqn:E; [|discriminate].
  apply Z.ltb_lt in E. simpl. eexists. split; [reflexivity|].
  clear Hint. remember (ts_ns tv) as ns eqn:Hns. clear Hns.
  unfold ts_ns. simpl. Z.div_mod_to_equations. lia.
Qed.

Lemma delay_resleeps_remaining_and_terminates_witness :
  (delay_loop 2 {| ts_sec := 0; ts_nsec := 50000000 |}
     (px_boot monotonic_device)
   = delay_loop 1 {| ts_sec := 0; ts_nsec := 25000000 |}
       (after (delay_turn {| ts_sec := 0; ts_nsec := 50000000 |}
                (px_boot monotonic_device)))) /\
  (delay_loop 1 {| ts_sec := 0; ts_nsec := 50000000 |}
     (px_boot wall_clock_device)
   = Some (after (delay_turn {| ts_sec := 0; ts_nsec := 50000000 |}
                    (px_boot wall_clock_device)))) /\
  (exists tvs,
     sleeps (world (px_boot monotonic_device))
       {| ts_sec := 50 / 1000; ts_nsec := (50 mod 1000) * 1000000 |} tvs
       (world delayed_50) /\
     trace delayed_50
     = trace (px_boot monotonic_device) ++ map EvNanosleep tvs) /\
  (exists s',
     forall fuel,
       (Z.to_nat (50 * 1000000) < fuel)%nat ->
       SDL_Delay fuel 50 (px_boot monotonic_device) = Some s').
Proof.
  destruct (@delay_resleeps_remaining_and_terminates px_world px_os)
    as (Hagain & Hstop & Hchain & Hends).
  split; [|split; [|split]].
  - apply (Hagain 1%nat {| ts_sec := 0; ts_nsec := 50000000 |}
             (px_boot monotonic_device)).
    reflexivity.
  - apply (Hstop 0%nat {| ts_sec := 0; ts_nsec := 50000000 |}
             (px_boot wall_clock_device)).
    left. reflexivity.
  - apply (Hchain 5%nat 50 (px_boot monotonic_device) delayed_50).
    + split; [discriminate | reflexivity].
    + reflexivity.
  - apply Hends.
    + split; [discriminate | reflexivity].
    + exact px_interruptions_decrease.
Defined.

Lemma delay_frames_time_source_witness :
  mem delayed_50 = mem (px_boot monotonic_device) /\
  ticks_started (mem delayed_50) = false.
Proof.
  destruct (proj1 (@delay_frames_time_source px_world px_os) 5%nat 50
              (px_boot monotonic_device) delayed_50 eq_refl)
    as (Hmem & Hflag & _).
  split; [exact Hmem | exact Hflag].
Defined.

End PosixFacts.

(** ** The time source as a whole: both halves side by side *)
Module TimeSource.
Import CInt Script.

Section WithOS.
Context {WW : Type} {wos : Win.OS WW}.
Context {PW : Type} {pos : Posix.OS PW} {build : Posix.Build}.

(** C1.  In a state where [ticks_started] is set, [SDL_TicksInit] returns
    at once and the state (origin, backend flag, frequency, world, trace)
    is the one it was called in; hence two calls in a row end in the
    state one call ends in.  This holds for both halves of the file. *)
Theorem ticks_init_idempotent :
  (forall s : Win.state WW,
     Win.ticks_started (Win.mem s) = true -> Win.SDL_TicksInit s = (tt, s)) /\
  (forall s : Win.state WW,
     after (Win.SDL_TicksInit (after (Win.SDL_TicksInit s)))
     = after (Win.SDL_TicksInit s)) /\
  (forall s : Posix.state PW,
     Posix.ticks_started (Posix.mem s) = true ->
     Posix.SDL_TicksInit s = (tt, s)) /\
  (forall s : Posix.state PW,
     after (Posix.SDL_TicksInit (after (Posix.SDL_TicksInit s)))
     = after (Posix.SDL_TicksInit s)).
Proof.
  split; [|split; [|split]].
  - exact WinFacts.win_TicksInit_started.
  - intro s. rewrite WinFacts.win_TicksInit_started; [reflexivity|].
    apply WinFacts.win_TicksInit_sets_started.
  - exact PosixFacts.posix_TicksInit_started.
  - intro s. rewrite PosixFacts.posix_TicksInit_started; [reflexivity|].
    apply PosixFacts.posix_TicksInit_sets_started.
Qed.


Lemma posix_GetTicks_mem (s : Posix.state PW) :
  Posix.mem (after (Posix.SDL_GetTicks s))
  = Posix.mem (after (Posix.SDL_TicksInit s)).
Proof.
  rewrite PosixFacts.posix_GetTicks_run. unfold Posix.ticks_now. cbv zeta.
  destruct (Posix.has_monotonic_time
              (Posix.mem (after (Posix.SDL_TicksInit s)))); [|reflexivity].
  destruct Posix.HAVE_CLOCK_GETTIME; reflexivity.
Qed.

Lemma posix_GetPerformanceCounter_mem (s : Posix.state PW) :
  Posix.mem (after (Posix.SDL_GetPerformanceCounter s))
  = Posix.mem (after (Posix.SDL_TicksInit s)).
Proof.
  rewrite PosixFacts.posix_GetPerformanceCounter_run. unfold Posix.counter_now.
  cbv zeta.
  destruct (Posix.has_monotonic_time
              (Posix.mem (after (Posix.SDL_TicksInit s)))); [|reflexivity].
  destruct Posix.HAVE_CLOCK_GETTIME; reflexivity.
Qed.


Lemma u64_scaled (a k b : Z) : u64 (u64 (u64 a * k) + b) = u64 (a * k + b).
Proof.
  unfold u64.
  rewrite Zplus_mod_idemp_l.
  rewrite (Zplus_mod (a mod 2 ^ 64 * k)), Zmult_mod_idemp_l, <- Zplus_mod.
  reflexivity.
Qed.

Lemma posix_counter_value (s : Posix.state PW) :
  value (Posix.SDL_GetPerformanceCounter s) =
  let s1 := after (Posix.SDL_TicksInit s) in
  if Posix.has_monotonic_time (Posix.mem s1) then
    if Posix.HAVE_CLOCK_GETTIME then
      let now := snd (fst (Posix.os_clock_gettime (Posix.world s1))) in
      u64 (Posix.ts_sec now * 1000000000 + Posix.ts_nsec now)
    else 0
  else
    let now := fst (Posix.os_gettimeofday (Posix.world s1)) in
    u64 (Posix.tv_sec now * 1000000 + Posix.tv_usec now).
Proof.
  rewrite PosixFacts.posix_GetPerformanceCounter_run. unfold Posix.counter_now.
  cbv zeta.
  destruct (Posix.has_monotonic_time
              (Posix.mem (after (Posix.SDL_TicksInit s)))).
  - destruct Posix.HAVE_CLOCK_GETTIME; [|reflexivity].
    unfold value. simpl. apply u64_scaled.
  - unfold value. simpl. apply u64_scaled.
Qed.

(** C6, as the code has it.  In the Windows half
    [SDL_GetPerformanceCounter] returns the raw reading of
    [QueryPerformanceCounter] (as a [Uint64], not relative to the origin)
    when that call succeeds, and otherwise exactly what [SDL_GetTicks]
    returns next.  In the POSIX half it returns a raw reading in either
    case: seconds times 1000000000 plus nanoseconds of [clock_gettime]
    when the monotonic clock was selected, and seconds times 1000000 plus
    microseconds of [gettimeofday] when it was not; it never returns the
    value of [SDL_GetTicks]. *)
Theorem performance_counter_is_raw_reading :
  (forall s : Win.state WW,
     let c := Win.os_QueryPerformanceCounter (Win.world s) in
     let s1 := Win.mkState (Win.mem s) (snd c)
                 (Win.trace s ++ [Win.EvQueryPerformanceCounter]) in
     value (Win.SDL_GetPerformanceCounter s) =
     if fst (fst c) =? 0 then value (Win.SDL_GetTicks s1)
     else u64 (snd (fst c))) /\
  (forall s : Posix.state PW,
     let s1 := after (Posix.SDL_TicksInit s) in
     value (Posix.SDL_GetPerformanceCounter s) =
     if Posix.has_monotonic_time (Posix.mem s1) then
       if Posix.HAVE_CLOCK_GETTIME then
         let now := snd (fst (Posix.os_clock_gettime (Posix.world s1))) in
         u64 (Posix.ts_sec now * 1000000000 + Posix.ts_nsec now)
       else 0
     else
       let now := fst (Posix.os_gettimeofday (Posix.world s1)) in
       u64 (Posix.tv_sec now * 1000000 + Posix.tv_usec now)).
Proof.
  split; intro s.
  - rewrite WinFacts.win_GetPerformanceCounter_run. cbv zeta.
    destruct (fst (fst (Win.os_QueryPerformanceCounter (Win.world s))) =? 0);
      [|reflexivity].
    unfold value at 1. simpl.
    rewrite WinFacts.win_GetTicks_run. unfold Win.ticks_now. cbv zeta.
    match goal with
    | |- context [if ?b then _ else _] => destruct b
    end; unfold value; simpl; apply WinFacts.u64_u32.
  - apply posix_counter_value.
Qed.


(** *** Teardown and re-initialisation *)

(** In the Windows half [SDL_TicksQuit] clears [ticks_started],
    unregisters the hint callback and asks for period 0, which gives back
    the period held if there was one.  [SDL_TicksInit] run after it sets
    the flag again, selects the clock anew ([hires_timer_available] is
    assigned on both branches) and keeps as origin the reading that clock
    gives during this call; [SDL_GetTicks] called when the clock still
    shows that reading returns 0 (on the counter path for a frequency
    that is not zero). *)
Lemma win_quit_then_init_restarts_origin (s : Win.state WW) :
  let s0 := after (Win.SDL_TicksQuit s) in
  let s1 := after (Win.SDL_TicksInit s0) in
  Win.ticks_started (Win.mem s0) = false /\
  Win.timer_period (Win.mem s0) = 0 /\
  Win.trace s0 =
    Win.trace s ++ [Win.EvDelHintCallback]
    ++ (if Win.timer_period (Win.mem s) =? 0 then []
        else [Win.EvTimeEndPeriod (Win.timer_period (Win.mem s))]) /\
  Win.ticks_started (Win.mem s1) = true /\
  Win.origin_captured s0 s1 /\
  (Win.reads_origin s1 ->
   (Win.hires_timer_available (Win.mem s1) = true ->
    Win.hires_ticks_per_second (Win.mem s1) <> 0) ->
   value (Win.SDL_GetTicks s1) = 0).
Proof.
  cbv zeta.
  assert (Hoff : Win.ticks_started (Win.mem (after (Win.SDL_TicksQuit s)))
                 = false).
  { rewrite WinFacts.TicksQuit_run. reflexivity. }
  split; [exact Hoff|].
  split; [rewrite WinFacts.TicksQuit_run; reflexivity|].
  split; [rewrite WinFacts.TicksQuit_run; cbv zeta; simpl;
          rewrite <- app_assoc; reflexivity|].
  split; [apply WinFacts.win_TicksInit_sets_started|].
  split; [apply WinFacts.win_TicksInit_origin, Hoff|].
  intros Hread _. rewrite WinFacts.win_GetTicks_run.
  rewrite (WinFacts.win_TicksInit_started
             (after (Win.SDL_TicksInit (after (Win.SDL_TicksQuit s)))))
    by apply WinFacts.win_TicksInit_sets_started.
  apply WinFacts.win_ticks_at_origin, Hread.
Qed.

(** In the POSIX half [SDL_TicksQuit] clears [ticks_started] and touches
    nothing else, [has_monotonic_time] included.  [SDL_TicksInit] run
    after it sets the flag again and keeps a reading of this call.  That
    reading is the origin [SDL_GetTicks] goes on to use, and
    [SDL_GetTicks] returns 0 while the clock shows it, provided the
    clock selected in an earlier epoch, if any, still answers. *)
Lemma posix_quit_then_init_restarts_origin (s : Posix.state PW) :
  let s0 := after (Posix.SDL_TicksQuit s) in
  let s1 := after (Posix.SDL_TicksInit s0) in
  s0 = Posix.with_mem (Posix.set_ticks_started false (Posix.mem s)) s /\
  Posix.ticks_started (Posix.mem s1) = true /\
  Posix.origin_captured s0 s1 /\
  (Posix.clock_still_answers s ->
   Posix.origin_in_use_is_fresh s0 s1 /\
   (Posix.reads_origin s1 -> value (Posix.SDL_GetTicks s1) = 0)).
Proof.
  cbv zeta. split; [reflexivity|].
  split; [apply PosixFacts.posix_TicksInit_sets_started|].
  split; [apply PosixFacts.posix_TicksInit_origin; reflexivity|].
  intro Hclock. split.
  - apply PosixFacts.posix_TicksInit_origin_in_use; [reflexivity|].
    exact Hclock.
  - intro Hread. rewrite PosixFacts.posix_GetTicks_run.
    rewrite (PosixFacts.posix_TicksInit_started
               (after (Posix.SDL_TicksInit (after (Posix.SDL_TicksQuit s)))))
      by apply PosixFacts.posix_TicksInit_sets_started.
    apply PosixFacts.posix_ticks_at_origin, Hread.
Qed.

(** *** Wrap-around of the millisecond counter *)

(** Two counters reduced modulo [2^32] still give their distance, when
    that distance is below [2^32]. *)
Lemma u32_difference (e1 e2 : Z) :
  0 <= e2 - e1 < 2 ^ 32 -> u32 (u32 e2 - u32 e1) = e2 - e1.
Proof.
  intro H. unfold u32. rewrite <- Zminus_mod. apply Z.mod_small, H.
Qed.

(** The conversion of [SDL_GetTicks] is within one millisecond of the
    time between the two readings. *)
Lemma ms_between_ts_close (origin now : Posix.timespec) :
  Z.abs (Posix.ms_between_ts origin now * 1000000
         - (Posix.ts_ns now - Posix.ts_ns origin)) < 1000000.
Proof.
  unfold Posix.ms_between_ts, Posix.ts_ns.
  pose proof (Z.quot_rem' (Posix.ts_nsec now - Posix.ts_nsec origin) 1000000)
    as Hqr.
  pose proof (Z.rem_bound_abs (Posix.ts_nsec now - Posix.ts_nsec origin)
                1000000 ltac:(lia)) as Hb.
  change (Z.abs 1000000) with 1000000 in Hb. lia.
Qed.

(** In the POSIX half [SDL_GetTicks] returns the milliseconds since the
    origin reduced modulo [2^32], on either clock and for either width
    of [long], when the sub-second fields of the readings are in range. *)
Lemma posix_ticks_value (s : Posix.state PW) :
  Posix.ticks_started (Posix.mem s) = true ->
  Posix.consistent (Posix.mem s) ->
  Posix.valid_ts (Posix.start_ts (Posix.mem s)) ->
  Posix.valid_tv (Posix.start_tv (Posix.mem s)) ->
  Posix.valid_ts (snd (fst (Posix.os_clock_gettime (Posix.world s)))) ->
  Posix.valid_tv (fst (Posix.os_gettimeofday (Posix.world s))) ->
  value (Posix.SDL_GetTicks s) =
  if Posix.has_monotonic_time (Posix.mem s)
  then u32 (Posix.ms_between_ts (Posix.start_ts (Posix.mem s))
              (snd (fst (Posix.os_clock_gettime (Posix.world s)))))
  else u32 (Posix.ms_between_tv (Posix.start_tv (Posix.mem s))
              (fst (Posix.os_gettimeofday (Posix.world s)))).
Proof.
  unfold Posix.valid_ts, Posix.valid_tv, Posix.consistent.
  intros Hst Hc Hts0 Htv0 Hts Htv.
  rewrite PosixFacts.posix_GetTicks_run, (PosixFacts.posix_TicksInit_started s Hst).
  unfold after, Posix.ticks_now. cbv zeta. simpl.
  destruct (Posix.has_monotonic_time (Posix.mem s)).
  - rewrite (Hc eq_refl). unfold value. simpl.
    apply PosixFacts.ticks_expression; [lia|].
    change (2 ^ 31) with 2147483648. lia.
  - unfold value. simpl.
    apply PosixFacts.ticks_expression; [lia|].
    change (2 ^ 31) with 2147483648. lia.
Qed.

(** Hence two readings of the POSIX counter taken from the same origin
    differ, in [Uint32] arithmetic, by the milliseconds between them, as
    long as those are fewer than [2^32]. *)
Lemma posix_ticks_wrap_safe (s1 s2 : Posix.state PW) :
  Posix.ticks_started (Posix.mem s1) = true ->
  Posix.consistent (Posix.mem s1) ->
  Posix.mem s2 = Posix.mem s1 ->
  Posix.has_monotonic_time (Posix.mem s1) = true ->
  let origin := Posix.start_ts (Posix.mem s1) in
  let now1 := snd (fst (Posix.os_clock_gettime (Posix.world s1))) in
  let now2 := snd (fst (Posix.os_clock_gettime (Posix.world s2))) in
  Posix.valid_ts origin -> Posix.valid_ts now1 -> Posix.valid_ts now2 ->
  0 <= Posix.ms_between_ts origin now2 - Posix.ms_between_ts origin now1
    < 2 ^ 32 ->
  u32 (value (Posix.SDL_GetTicks s2) - value (Posix.SDL_GetTicks s1))
  = Posix.ms_between_ts origin now2 - Posix.ms_between_ts origin now1.
Proof.
  intros Hst Hc Hmem Hmono origin now1 now2 Ho H1 H2 Hd.
  rewrite PosixFacts.posix_GetTicks_run, (PosixFacts.posix_GetTicks_run s1).
  rewrite (PosixFacts.posix_TicksInit_started s1 Hst).
  rewrite (PosixFacts.posix_TicksInit_started s2) by (rewrite Hmem; exact Hst).
  unfold after, Posix.ticks_now. cbv zeta. simpl.
  rewrite Hmem, Hmono, (Hc Hmono). unfold value. simpl.
  unfold Posix.valid_ts in *.
  rewrite !PosixFacts.ticks_expression;
    try lia; try (change (2 ^ 31) with 2147483648; subst origin now1 now2; lia).
  apply u32_difference, Hd.
Qed.

(** In the Windows half, without a performance counter, [SDL_GetTicks]
    is the [DWORD] difference of two [timeGetTime] readings. *)
Lemma win_lowres_ticks_value (s : Win.state WW) :
  Win.ticks_started (Win.mem s) = true ->
  Win.hires_timer_available (Win.mem s) = false ->
  value (Win.SDL_GetTicks s)
  = u32 (fst (Win.os_timeGetTime (Win.world s)) - Win.start (Win.mem s)).
Proof.
  intros Hst Hlow.
  rewrite WinFacts.win_GetTicks_run, (WinFacts.win_TicksInit_started s Hst).
  unfold after, Win.ticks_now. cbv zeta. simpl. rewrite Hlow. reflexivity.
Qed.

(** With a performance counter, [SDL_GetTicks] is the milliseconds since
    the origin reduced modulo [2^32] only as long as the tick difference
    times 1000 fits a [LONGLONG]. *)
Lemma win_hires_ticks_value (s : Win.state WW) :
  Win.ticks_started (Win.mem s) = true ->
  Win.hires_timer_available (Win.mem s) = true ->
  0 < Win.hires_ticks_per_second (Win.mem s) ->
  let now := snd (fst (Win.os_QueryPerformanceCounter (Win.world s))) in
  0 <= now - Win.hires_start_ticks (Win.mem s) ->
  (now - Win.hires_start_ticks (Win.mem s)) * 1000 < 2 ^ 63 ->
  value (Win.SDL_GetTicks s)
  = u32 (Win.hires_ms (Win.hires_start_ticks (Win.mem s))
           (Win.hires_ticks_per_second (Win.mem s)) now).
Proof.
  intros Hst Hhi Hf now Hpos Hfit.
  rewrite WinFacts.win_GetTicks_run, (WinFacts.win_TicksInit_started s Hst).
  unfold after, Win.ticks_now, Win.hires_ms. cbv zeta. simpl. rewrite Hhi.
  unfold value. simpl. fold now.
  change (2 ^ 63) with 9223372036854775808 in Hfit.
  assert (Hq : 0 <= Z.quot ((now - Win.hires_start_ticks (Win.mem s)) * 1000)
                      (Win.hires_ticks_per_second (Win.mem s))
               <= (now - Win.hires_start_ticks (Win.mem s)) * 1000).
  { split.
    - apply Z.quot_pos; lia.
    - apply Z.quot_le_upper_bound; nia. }
  unfold s64.
  rewrite (PosixFacts.sint64_small (now - Win.hires_start_ticks (Win.mem s)))
    by (change (2 ^ 63) with 9223372036854775808; lia).
  rewrite (PosixFacts.sint64_small
             ((now - Win.hires_start_ticks (Win.mem s)) * 1000))
    by (change (2 ^ 63) with 9223372036854775808; lia).
  rewrite PosixFacts.sint64_small
    by (change (2 ^ 63) with 9223372036854775808; lia).
  reflexivity.
Qed.

End WithOS.

(** C2, where the code departs from it.  On a Windows machine whose
    performance counter runs at 3 GHz, take one reading 3074457345 ms
    after the origin and a second one 1000 ms later.  The first value of
    [SDL_GetTicks] is right; for the second the product of the tick
    difference by 1000 no longer fits a [LONGLONG], the value returned is
    1220510951, and the [Uint32] difference of the two is 2441020902
    instead of 1000.  No 32-bit wrap of the counter lies between the two
    readings. *)
Theorem win_hires_ticks_break_at_longlong_overflow :
  let s0 := after (Win.SDL_TicksInit (win_boot tsc_machine)) in
  let r1 := Win.SDL_GetTicks s0 in
  let r2 := Win.SDL_GetTicks (after r1) in
  Win.hires_start_ticks (Win.mem s0) = 0 /\
  Win.hires_ticks_per_second (Win.mem s0) = 3000000000 /\
  Win.hires_ms 0 3000000000 9223372036000000 = 3074457345 /\
  Win.hires_ms 0 3000000000 9223375036000000 = 3074457345 + 1000 /\
  value r1 = 3074457345 /\
  value r2 = 1220510951 /\
  u32 (value r2 - value r1) = 2441020902 /\
  u32 (value r2 - value r1) <> 1000.
Proof. vm_compute. repeat split; discriminate. Qed.

(** The same experiment on a 32-bit Android device, across the wrap of
    the counter: the readings are 4294967290 and 4, and their [Uint32]
    difference is the 10 ms that passed. *)
Example posix_ticks_across_the_wrap :
  let s0 := after (@Posix.SDL_TicksInit _ _ android32
                     (px_boot long_running_device)) in
  let r1 := @Posix.SDL_GetTicks _ _ android32 s0 in
  let r2 := @Posix.SDL_GetTicks _ _ android32 (after r1) in
  value r1 = 4294967290 /\ value r2 = 4 /\ u32 (value r2 - value r1) = 10.
Proof. vm_compute. repeat split. Qed.

Lemma ticks_init_idempotent_witness :
  Win.SDL_TicksInit (after (Win.SDL_TicksInit (win_boot plain_machine)))
  = (tt, after (Win.SDL_TicksInit (win_boot plain_machine))) /\
  @Posix.SDL_TicksInit _ _ android32
    (after (@Posix.SDL_TicksInit _ _ android32 (px_boot monotonic_device)))
  = (tt, after (@Posix.SDL_TicksInit _ _ android32
                  (px_boot monotonic_device))).
Proof.
  destruct (@ticks_init_idempotent win_world win_os px_world px_os android32)
    as (Hwin & _ & Hposix & _).
  split; [apply Hwin | apply Hposix]; reflexivity.
Defined.



(** C6 as the spec words it fails: on a device where [clock_gettime]
    fails, 5 ms after the origin, [SDL_GetTicks] returns 5 and
    [SDL_GetPerformanceCounter] returns the wall-clock reading in
    microseconds, 100005000. *)
Lemma posix_fallback_counter_is_not_ticks :
  let s := after (@Posix.SDL_TicksInit _ _ android32
                    (px_boot wall_clock_device)) in
  Posix.has_monotonic_time (Posix.mem s) = false /\
  value (@Posix.SDL_GetTicks _ _ android32 s) = 5 /\
  value (@Posix.SDL_GetPerformanceCounter _ _ android32 s) = 100005000 /\
  value (@Posix.SDL_GetPerformanceCounter _ _ android32 s)
  <> u64 (value (@Posix.SDL_GetTicks _ _ android32 s)).
Proof. vm_compute. repeat split; discriminate. Qed.



(** Teardown and re-initialisation on machines that were running: the
    first reading after the second [SDL_TicksInit] is 0, on the Windows
    counter and on the monotonic clock of the device. *)
Example quit_then_init_on_running_machines :
  value (Win.SDL_GetTicks
           (after (Win.SDL_TicksInit
                     (after (Win.SDL_TicksQuit
                               (Bench.win_started
                                  {| qpf_answer := (1, 10000000); qpc_rc := 1;
                                     qpc_readings := [100; 900; 900];
                                     tgt_readings := [];
                                     hint_call := None |}))))))
  = 0 /\
  value (@Posix.SDL_GetTicks _ _ android32
           (after (@Posix.SDL_TicksInit _ _ android32
                     (after (Posix.SDL_TicksQuit
                               (after (@Posix.SDL_TicksInit _ _ android32
                                         (px_boot
                                            {| mono_rc := 0;
                                               mono_readings :=
                                                 [ {| Posix.ts_sec := 100;
                                                      Posix.ts_nsec := 0 |};
                                                   {| Posix.ts_sec := 160;
                                                      Posix.ts_nsec := 5 |};
                                                   {| Posix.ts_sec := 160;
                                                      Posix.ts_nsec := 5 |} ];
                                               wall_readings := [];
                                               signals := 0 |}))))))))
  = 0.
Proof. vm_compute. split; reflexivity. Qed.


End TimeSource.

From Stdlib Require Import Sorted.

(** ** More on the POSIX half *)
Module PosixMore.
Import CInt Posix PosixApi Script Bench.

(** *** The conversion to milliseconds *)

Lemma ms_between_ts_monotone (origin now1 now2 : timespec) :
  valid_ts origin -> valid_ts now1 -> valid_ts now2 ->
  ts_ns now1 <= ts_ns now2 ->
  ms_between_ts origin now1 <= ms_between_ts origin now2.
Proof.
  unfold valid_ts, ts_ns, ms_between_ts. intros Ho H1 H2 Hle.
  Z.to_euclidean_division_equations. lia.
Qed.

Lemma ms_between_tv_monotone (origin now1 now2 : timeval) :
  valid_tv origin -> valid_tv now1 -> valid_tv now2 ->
  tv_us now1 <= tv_us now2 ->
  ms_between_tv origin now1 <= ms_between_tv origin now2.
Proof.
  unfold valid_tv, tv_us, ms_between_tv. intros Ho H1 H2 Hle.
  Z.to_euclidean_division_equations. lia.
Qed.

Lemma ms_between_tv_close (origin now : timeval) :
  Z.abs (ms_between_tv origin now * 1000 - (tv_us now - tv_us origin)) < 1000.
Proof.
  unfold ms_between_tv, tv_us.
  Z.to_euclidean_division_equations. lia.
Qed.

Section WithOS.
Context {W : Type} {os : OS W} {build : Build}.

(** A started state in which the readings are well formed. *)
Lemma ticks_are_elapsed (s : state W) :
  ticks_started (mem s) = true ->
  consistent (mem s) ->
  readable s ->
  value (SDL_GetTicks s) = u32 (elapsed_ms s).
Proof.
  intros Hst Hc (H1 & H2 & H3 & H4).
  rewrite (TimeSource.posix_ticks_value s Hst Hc H1 H2 H3 H4).
  unfold elapsed_ms. destruct (has_monotonic_time (mem s)); reflexivity.
Qed.

Lemma elapsed_ms_same_origin (s1 s2 : state W) :
  mem s2 = mem s1 ->
  elapsed_ms s2 =
  if has_monotonic_time (mem s1)
  then ms_between_ts (start_ts (mem s1))
         (snd (fst (os_clock_gettime (world s2))))
  else ms_between_tv (start_tv (mem s1)) (fst (os_gettimeofday (world s2))).
Proof. intro H. unfold elapsed_ms. rewrite H. reflexivity. Qed.

(** X1.  Two readings of [SDL_GetTicks] taken in the same epoch, on
    whichever clock was selected and for either width of [long], differ
    in [Uint32] arithmetic by exactly the milliseconds between them, as
    long as those are fewer than [2^32]; the counter may have wrapped in
    between. *)
Theorem posix_ticks_difference_is_elapsed (s1 s2 : state W) :
  ticks_started (mem s1) = true ->
  consistent (mem s1) ->
  mem s2 = mem s1 ->
  readable s1 -> readable s2 ->
  0 <= elapsed_ms s2 - elapsed_ms s1 < 2 ^ 32 ->
  u32 (value (SDL_GetTicks s2) - value (SDL_GetTicks s1))
  = elapsed_ms s2 - elapsed_ms s1.
Proof.
  intros Hst Hc Hmem Hr1 Hr2 Hd.
  rewrite (ticks_are_elapsed s1 Hst Hc Hr1).
  rewrite (ticks_are_elapsed s2) by (rewrite ?Hmem; assumption).
  apply TimeSource.u32_difference, Hd.
Qed.

(** X2.  [SDL_GetTicks] does not go backwards while the selected clock
    does not: of two readings in the same epoch, the later one converts
    to at least as many milliseconds, and before the first wrap the value
    returned is at least the earlier one. *)
Theorem posix_ticks_never_go_backwards (s1 s2 : state W) :
  ticks_started (mem s1) = true ->
  consistent (mem s1) ->
  mem s2 = mem s1 ->
  readable s1 -> readable s2 ->
  clock_units s1 <= clock_units s2 ->
  elapsed_ms s1 <= elapsed_ms s2 /\
  (0 <= elapsed_ms s1 -> elapsed_ms s2 < 2 ^ 32 ->
   value (SDL_GetTicks s1) <= value (SDL_GetTicks s2)).
Proof.
  intros Hst Hc Hmem Hr1 Hr2 Hle.
  assert (Hmono : elapsed_ms s1 <= elapsed_ms s2).
  { rewrite (elapsed_ms_same_origin s1 s2 Hmem).
    unfold elapsed_ms, clock_units in *. rewrite Hmem in Hle.
    destruct Hr1 as (Ho1 & Ho2 & Ha1 & Ha2).
    destruct Hr2 as (_ & _ & Hb1 & Hb2).
    destruct (has_monotonic_time (mem s1)).
    - apply ms_between_ts_monotone; assumption.
    - apply ms_between_tv_monotone; assumption. }
  split; [exact Hmono|]. intros H0 H32.
  rewrite (ticks_are_elapsed s1 Hst Hc Hr1).
  rewrite (ticks_are_elapsed s2) by (rewrite ?Hmem; assumption).
  unfold u32. rewrite !Z.mod_small by lia. exact Hmono.
Qed.

(** X3.  Before the first wrap, the value of [SDL_GetTicks] is within
    one millisecond of the time the selected clock has advanced since
    the origin. *)
Theorem posix_ticks_within_one_ms (s : state W) :
  ticks_started (mem s) = true ->
  consistent (mem s) ->
  readable s ->
  0 <= elapsed_ms s < 2 ^ 32 ->
  Z.abs (value (SDL_GetTicks s) * units_per_ms s
         - (clock_units s - origin_units s)) < units_per_ms s.
Proof.
  intros Hst Hc Hr H32.
  rewrite (ticks_are_elapsed s Hst Hc Hr).
  unfold u32. rewrite Z.mod_small by exact H32.
  unfold elapsed_ms, units_per_ms, clock_units, origin_units.
  destruct (has_monotonic_time (mem s)).
  - apply TimeSource.ms_between_ts_close.
  - apply ms_between_tv_close.
Qed.

(** *** The performance counter *)

Lemma counter_is_reading (s : state W) :
  ticks_started (mem s) = true ->
  consistent (mem s) ->
  value (SDL_GetPerformanceCounter s) = u64 (clock_units s).
Proof.
  intros Hst Hc. rewrite TimeSource.posix_counter_value.
  rewrite (PosixFacts.posix_TicksInit_started s Hst). unfold after. simpl.
  unfold clock_units, ts_ns, tv_us.
  destruct (has_monotonic_time (mem s)) eqn:Hm; [|reflexivity].
  rewrite (Hc Hm). reflexivity.
Qed.

Lemma frequency_is_units_per_second (s : state W) :
  ticks_started (mem s) = true ->
  consistent (mem s) ->
  value (SDL_GetPerformanceFrequency s) = units_per_ms s * 1000.
Proof.
  intros Hst Hc. rewrite PosixFacts.posix_GetPerformanceFrequency_run.
  rewrite (PosixFacts.posix_TicksInit_started s Hst). unfold after, value.
  simpl. unfold units_per_ms.
  destruct (has_monotonic_time (mem s)) eqn:Hm; [|reflexivity].
  rewrite (Hc Hm). reflexivity.
Qed.

(** X4.  Two readings of [SDL_GetPerformanceCounter] taken in the same
    epoch differ, in [Uint64] arithmetic, by exactly what the selected
    clock has advanced between them: nanoseconds of [clock_gettime],
    microseconds of [gettimeofday]. *)
Theorem posix_counter_difference_is_exact (s1 s2 : state W) :
  ticks_started (mem s1) = true ->
  consistent (mem s1) ->
  mem s2 = mem s1 ->
  0 <= clock_units s2 - clock_units s1 < 2 ^ 64 ->
  u64 (value (SDL_GetPerformanceCounter s2)
       - value (SDL_GetPerformanceCounter s1))
  = clock_units s2 - clock_units s1.
Proof.
  intros Hst Hc Hmem Hd.
  rewrite (counter_is_reading s1 Hst Hc).
  rewrite (counter_is_reading s2) by (rewrite Hmem; assumption).
  unfold u64. rewrite <- Zminus_mod. apply Z.mod_small, Hd.
Qed.

(** X5.  The counter and the frequency decode back to the reading: for
    a reading of the selected clock that is not negative and fits 64
    bits, the counter divided by the frequency is its seconds field and
    the remainder is its sub-second field. *)
Theorem posix_counter_over_frequency_is_seconds (s : state W) :
  ticks_started (mem s) = true ->
  consistent (mem s) ->
  readable s ->
  0 <= clock_units s < 2 ^ 64 ->
  let c := value (SDL_GetPerformanceCounter s) in
  let f := value (SDL_GetPerformanceFrequency s) in
  if has_monotonic_time (mem s) then
    c / f = ts_sec (snd (fst (os_clock_gettime (world s)))) /\
    c mod f = ts_nsec (snd (fst (os_clock_gettime (world s))))
  else
    c / f = tv_sec (fst (os_gettimeofday (world s))) /\
    c mod f = tv_usec (fst (os_gettimeofday (world s))).
Proof.
  intros Hst Hc (_ & _ & Hts & Htv) Hfit. cbv zeta.
  rewrite (counter_is_reading s Hst Hc).
  rewrite (frequency_is_units_per_second s Hst Hc).
  unfold u64. rewrite Z.mod_small by exact Hfit.
  unfold clock_units, units_per_ms, ts_ns, tv_us, valid_ts, valid_tv in *.
  destruct (has_monotonic_time (mem s)); simpl.
  - split.
    + symmetry. apply (Z.div_unique _ _ _ (ts_nsec (snd (fst (os_clock_gettime (world s))))));
        lia.
    + symmetry. apply (Z.mod_unique _ _ (ts_sec (snd (fst (os_clock_gettime (world s))))));
        lia.
  - split.
    + symmetry. apply (Z.div_unique _ _ _ (tv_usec (fst (os_gettimeofday (world s)))));
        lia.
    + symmetry. apply (Z.mod_unique _ _ (tv_sec (fst (os_gettimeofday (world s)))));
        lia.
Qed.

(** *** Sequences of calls *)

Lemma step_mem (o : op) (s s' : state W) :
  step o s = Some s' ->
  if is_quit o then mem s' = set_ticks_started false (mem s)
  else mem s' = mem s \/ mem s' = mem (after (SDL_TicksInit s)).
Proof.
  destruct o; simpl; intro H; try (injection H as <-).
  - right. reflexivity.
  - reflexivity.
  - right. apply TimeSource.posix_GetTicks_mem.
  - right. apply TimeSource.posix_GetPerformanceCounter_mem.
  - right. rewrite PosixFacts.posix_GetPerformanceFrequency_run.
    reflexivity.
  - left. unfold SDL_Delay in H.
    destruct (PosixFacts.delay_loop_sleeps _ _ _ _ H) as (_ & _ & _ & Hmem).
    exact Hmem.
Qed.

Lemma init_keeps_selection (s : state W) :
  has_monotonic_time (mem s) = true ->
  has_monotonic_time (mem (after (SDL_TicksInit s))) = true.
Proof.
  intro Hm. destruct (ticks_started (mem s)) eqn:Hst.
  - rewrite (PosixFacts.posix_TicksInit_started s Hst). exact Hm.
  - rewrite (PosixFacts.posix_TicksInit_fresh s Hst). cbv zeta.
    destruct HAVE_CLOCK_GETTIME; [|exact Hm].
    destruct (fst (fst (os_clock_gettime (world s))) =? 0); [reflexivity|].
    exact Hm.
Qed.

(** X6.  Whatever calls are made from the state the C initialisers
    give, the monotonic clock is only ever selected by a build that has
    [clock_gettime]: the [SDL_assert(SDL_FALSE)] branches of
    [SDL_GetTicks] and [SDL_GetPerformanceCounter] are never reached. *)
Theorem posix_assert_branch_unreachable
    (ops : list op) (w : W) (tr : list event) (s' : state W) :
  run ops (mkState initial_globals w tr) = Some s' ->
  has_monotonic_time (mem s') = true ->
  HAVE_CLOCK_GETTIME = true.
Proof.
  assert (Hinv : forall ops s s',
             consistent (mem s) -> run ops s = Some s' -> consistent (mem s')).
  { induction ops0 as [|o rest IH]; simpl; intros s0 s1 Hc Hrun.
    - injection Hrun as <-. exact Hc.
    - destruct (step o s0) as [s2|] eqn:Hstep; [|discriminate].
      apply (IH s2 s1); [|exact Hrun].
      pose proof (step_mem o s0 s2 Hstep) as Hmem.
      destruct (is_quit o); [rewrite Hmem; exact Hc|].
      destruct Hmem as [-> | ->];
        [exact Hc | apply PosixFacts.TicksInit_consistent, Hc]. }
  intro Hrun.
  apply (Hinv ops (mkState initial_globals w tr) s'); [|exact Hrun].
  intro H. discriminate.
Qed.

(** X7.  The selection of the monotonic clock outlives teardown: once
    [has_monotonic_time] is set, no sequence of calls, [SDL_TicksQuit]
    and a later [SDL_TicksInit] with a failing [clock_gettime] included,
    clears it again. *)
Theorem posix_monotonic_selection_is_sticky
    (ops : list op) (s s' : state W) :
  has_monotonic_time (mem s) = true ->
  run ops s = Some s' ->
  has_monotonic_time (mem s') = true.
Proof.
  revert s. induction ops as [|o rest IH]; simpl; intros s Hm Hrun.
  - injection Hrun as <-. exact Hm.
  - destruct (step o s) as [s2|] eqn:Hstep; [|discriminate].
    apply (IH s2); [|exact Hrun].
    pose proof (step_mem o s s2 Hstep) as Hmem.
    destruct (is_quit o); [rewrite Hmem; exact Hm|].
    destruct Hmem as [-> | ->]; [exact Hm | apply init_keeps_selection, Hm].
Qed.

(** X8.  Between initialisation and teardown nothing is rewritten: from
    a started state, any sequence of calls without [SDL_TicksQuit]
    (initialisations, queries, delays) leaves every global, the origin
    and the selected clock among them, as it was. *)
Theorem posix_epoch_is_frozen (ops : list op) (s s' : state W) :
  ticks_started (mem s) = true ->
  forallb (fun o => negb (is_quit o)) ops = true ->
  run ops s = Some s' ->
  mem s' = mem s.
Proof.
  revert s. induction ops as [|o rest IH]; simpl; intros s Hst Hnq Hrun.
  - injection Hrun as <-. reflexivity.
  - apply andb_prop in Hnq. destruct Hnq as [Ho Hrest].
    destruct (step o s) as [s2|] eqn:Hstep; [|discriminate].
    assert (Hsame : mem s2 = mem s).
    { pose proof (step_mem o s s2 Hstep) as Hmem.
      destruct (is_quit o); [discriminate Ho|].
      destruct Hmem as [H | H]; [exact H|].
      rewrite H, (PosixFacts.posix_TicksInit_started s Hst). reflexivity. }
    rewrite <- Hsame. apply IH; [rewrite Hsame; exact Hst | exact Hrest | exact Hrun].
Qed.

(** X9.  A query made before initialisation measures from its own
    first reading: [SDL_GetTicks] called with [ticks_started] clear
    returns the milliseconds between the reading [SDL_TicksInit] takes
    as origin and the reading it takes itself right after, on the
    monotonic clock when [clock_gettime] succeeds and on the wall clock
    otherwise. *)
Theorem posix_first_ticks_measure_between_own_reads (s : state W) :
  ticks_started (mem s) = false ->
  (HAVE_CLOCK_GETTIME = true ->
   fst (fst (os_clock_gettime (world s))) = 0 ->
   let origin := snd (fst (os_clock_gettime (world s))) in
   let now := snd (fst (os_clock_gettime (snd (os_clock_gettime (world s))))) in
   valid_ts origin -> valid_ts now ->
   value (SDL_GetTicks s) = u32 (ms_between_ts origin now)) /\
  (HAVE_CLOCK_GETTIME = false ->
   has_monotonic_time (mem s) = false ->
   let origin := fst (os_gettimeofday (world s)) in
   let now := fst (os_gettimeofday (snd (os_gettimeofday (world s)))) in
   valid_tv origin -> valid_tv now ->
   value (SDL_GetTicks s) = u32 (ms_between_tv origin now)).
Proof.
  intro Hst. rewrite PosixFacts.posix_GetTicks_run.
  rewrite (PosixFacts.posix_TicksInit_fresh s Hst). cbv zeta.
  unfold valid_ts, valid_tv, ms_between_ts, ms_between_tv.
  split.
  - intros Hhave Hrc Ho Hn. rewrite Hhave, Hrc. simpl.
    unfold ticks_now. simpl. rewrite Hhave. unfold value. simpl.
    apply PosixFacts.ticks_expression; [lia|].
    change (2 ^ 31) with 2147483648. lia.
  - intros Hhave Hm Ho Hn. rewrite Hhave.
    unfold ticks_now. simpl. rewrite Hm. unfold value. simpl.
    apply PosixFacts.ticks_expression; [lia|].
    change (2 ^ 31) with 2147483648. lia.
Qed.

(** *** The delay *)

(** X10.  [SDL_Delay] has no bound on its retries: as long as every
    [nanosleep] is interrupted the loop goes on, whatever it is given to
    run. *)
Theorem posix_delay_retries_without_bound :
  (forall tv w, interrupted (fst (os_nanosleep tv w)) = true) ->
  forall fuel ms (s : state W), SDL_Delay fuel ms s = None.
Proof.
  intros Hstorm fuel ms s. unfold SDL_Delay.
  generalize {| ts_sec := ms / 1000;
                ts_nsec := u32 (ms mod 1000 * 1000000) |}.
  revert s. induction fuel as [|fuel IH]; intros s tv; [reflexivity|].
  rewrite PosixFacts.delay_loop_step. cbv zeta. rewrite Hstorm. apply IH.
Qed.

(** X11.  For every [Uint32] number of milliseconds the first request
    of [SDL_Delay] is a well-formed [timespec] worth exactly that many
    milliseconds, zero included; and when that sleep is not interrupted
    the call is this one [nanosleep] and nothing else. *)
Theorem posix_delay_uninterrupted_is_one_exact_sleep
    (fuel : nat) (ms : Z) (s : state W) :
  0 <= ms < 2 ^ 32 ->
  let first := {| ts_sec := ms / 1000; ts_nsec := ms mod 1000 * 1000000 |} in
  interrupted (fst (os_nanosleep first (world s))) = false ->
  valid_ts first /\
  0 <= ts_sec first <= 4294967 /\
  ts_ns first = ms * 1000000 /\
  SDL_Delay (S fuel) ms s =
  Some (mkState (mem s) (snd (os_nanosleep first (world s)))
          (trace s ++ [EvNanosleep first])).
Proof.
  intros Hms first Hquiet. subst first.
  change (2 ^ 32) with 4294967296 in Hms.
  unfold valid_ts, ts_ns. simpl.
  split; [Z.div_mod_to_equations; lia|].
  split; [Z.div_mod_to_equations; lia|].
  split; [Z.div_mod_to_equations; lia|].
  unfold SDL_Delay. rewrite PosixFacts.first_request
    by (change (2 ^ 32) with 4294967296; exact Hms).
  rewrite PosixFacts.delay_loop_step. cbv zeta. rewrite Hquiet. reflexivity.
Qed.

Lemma sleeps_shorten (Hdec : interruptions_decrease) :
  forall (w : W) tv tvs w',
    sleeps w tv tvs w' ->
    hd_error tvs = Some tv /\
    StronglySorted (fun a b => 0 <= ts_ns b < ts_ns a) tvs /\
    Forall (fun t => t = tv \/ 0 <= ts_ns t < ts_ns tv) tvs.
Proof.
  induction 1 as [w tv r w' Hos Hq | w tv r w' tvs w'' Hos Hint _ IH].
  - repeat split.
    + repeat constructor.
    + constructor; [left; reflexivity | constructor].
  - pose proof (Hdec tv w) as Hd. rewrite Hos in Hd. simpl in Hd.
    destruct (Hd Hint) as (rem & Hrem & Hlt). rewrite Hrem in IH.
    destruct IH as (_ & Hsorted & Hall).
    assert (Hbelow : Forall (fun t => 0 <= ts_ns t < ts_ns tv) tvs).
    { eapply Forall_impl; [|exact Hall]. simpl.
      intros t [-> | Ht]; lia. }
    repeat split.
    + constructor; assumption.
    + constructor; [left; reflexivity|].
      eapply Forall_impl; [|exact Hbelow]. simpl. intros t Ht. right. exact Ht.
Qed.

(** X12.  When interruptions shorten the remaining time, the requests a
    finished [SDL_Delay] has made to [nanosleep] start with the full
    delay and get strictly shorter from one to the next: no request asks
    for more than the [ms] milliseconds of the call. *)
Theorem posix_delay_requests_only_shrink
    (fuel : nat) (ms : Z) (s s' : state W) :
  interruptions_decrease ->
  0 <= ms < 2 ^ 32 ->
  SDL_Delay fuel ms s = Some s' ->
  exists tvs,
    trace s' = trace s ++ map EvNanosleep tvs /\
    hd_error tvs
    = Some {| ts_sec := ms / 1000; ts_nsec := ms mod 1000 * 1000000 |} /\
    StronglySorted (fun a b => 0 <= ts_ns b < ts_ns a) tvs /\
    Forall (fun t => ts_ns t <= ms * 1000000) tvs.
Proof.
  intros Hdec Hms Hrun. unfold SDL_Delay in Hrun.
  pose proof (PosixFacts.first_request_ns ms Hms) as Hns.
  rewrite PosixFacts.first_request in Hrun, Hns by exact Hms.
  destruct (PosixFacts.delay_loop_sleeps _ _ _ _ Hrun) as (tvs & Hsl & Htr & _).
  destruct (sleeps_shorten Hdec _ _ _ _ Hsl) as (Hhd & Hsorted & Hall).
  exists tvs. repeat split; try assumption.
  eapply Forall_impl; [|exact Hall]. simpl. intros t [-> | Ht]; lia.
Qed.

End WithOS.

(** The states the witnesses below start from: the scripted devices
    after [SDL_TicksInit], and after one more reading of the ticks. *)
Lemma posix_ticks_difference_is_elapsed_witness :
  let s1 := after (@SDL_TicksInit _ _ android32 (px_boot long_running_device)) in
  let s2 := after (@SDL_GetTicks _ _ android32 s1) in
  u32 (value (@SDL_GetTicks _ _ android32 s2)
       - value (@SDL_GetTicks _ _ android32 s1)) = 10.
Proof.
  cbv zeta. eapply eq_trans.
  { apply (@posix_ticks_difference_is_elapsed _ _ android32
             (after (@SDL_TicksInit _ _ android32
                       (px_boot long_running_device)))
             (after (@SDL_GetTicks _ _ android32
                       (after (@SDL_TicksInit _ _ android32
                                 (px_boot long_running_device)))))).
    - reflexivity.
    - intro; reflexivity.
    - reflexivity.
    - unfold readable, valid_ts, valid_tv. simpl. lia.
    - unfold readable, valid_ts, valid_tv. simpl. lia.
    - vm_compute. split; [discriminate | reflexivity]. }
  reflexivity.
Defined.

Lemma px_started_readable :
  @readable _ _ px_started /\ @readable _ _ px_read_once.
Proof.
  unfold readable, valid_ts, valid_tv. simpl. lia.
Qed.

Lemma posix_ticks_never_go_backwards_witness :
  @elapsed_ms _ _ px_started <= @elapsed_ms _ _ px_read_once /\
  value (@SDL_GetTicks _ _ android32 px_started)
  <= value (@SDL_GetTicks _ _ android32 px_read_once).
Proof.
  destruct (@posix_ticks_never_go_backwards _ _ android32
              px_started px_read_once)
    as [Helapsed Hvalue].
  - reflexivity.
  - intro; reflexivity.
  - reflexivity.
  - apply px_started_readable.
  - apply px_started_readable.
  - vm_compute. discriminate.
  - split; [exact Helapsed|].
    apply Hvalue; vm_compute; [discriminate | reflexivity].
Defined.

Lemma posix_ticks_within_one_ms_witness :
  Z.abs (value (@SDL_GetTicks _ _ android32 px_read_once)
         * @units_per_ms _ px_read_once
         - (@clock_units _ _ px_read_once - @origin_units _ px_read_once))
  < @units_per_ms _ px_read_once.
Proof.
  apply (@posix_ticks_within_one_ms _ _ android32 px_read_once).
  - reflexivity.
  - intro; reflexivity.
  - apply px_started_readable.
  - vm_compute. split; [discriminate | reflexivity].
Defined.

Lemma posix_counter_difference_is_exact_witness :
  u64 (value (@SDL_GetPerformanceCounter _ _ android32 px_read_once)
       - value (@SDL_GetPerformanceCounter _ _ android32 px_started))
  = 5000000.
Proof.
  eapply eq_trans.
  { apply (@posix_counter_difference_is_exact _ _ android32
             px_started px_read_once).
    - reflexivity.
    - intro; reflexivity.
    - reflexivity.
    - vm_compute. split; [discriminate | reflexivity]. }
  reflexivity.
Defined.

Lemma posix_counter_over_frequency_is_seconds_witness :
  value (@SDL_GetPerformanceCounter _ _ android32 px_read_once)
  / value (@SDL_GetPerformanceFrequency _ _ android32 px_read_once) = 101 /\
  value (@SDL_GetPerformanceCounter _ _ android32 px_read_once)
  mod value (@SDL_GetPerformanceFrequency _ _ android32 px_read_once)
  = 4000000.
Proof.
  refine (@posix_counter_over_frequency_is_seconds _ _ android32 px_read_once
            _ _ _ _).
  - reflexivity.
  - intro; reflexivity.
  - apply px_started_readable.
  - vm_compute. split; [discriminate | reflexivity].
Defined.

Lemma posix_assert_branch_unreachable_witness :
  has_monotonic_time (mem px_session_end) = true /\
  @HAVE_CLOCK_GETTIME android32 = true.
Proof.
  split; [reflexivity|].
  apply (@posix_assert_branch_unreachable _ _ android32 px_session_calls
           monotonic_device [] px_session_end);
    reflexivity.
Defined.

Lemma posix_monotonic_selection_is_sticky_witness :
  has_monotonic_time (mem px_session_end) = true.
Proof.
  apply (@posix_monotonic_selection_is_sticky _ _ android32
           [PosixApi.OpTicksQuit; PosixApi.OpGetPerformanceFrequency;
            PosixApi.OpDelay 5 50]
           px_read_once px_session_end);
    reflexivity.
Defined.

Lemma posix_epoch_is_frozen_witness :
  mem px_epoch_end = mem px_started.
Proof.
  apply (@posix_epoch_is_frozen _ _ android32 px_epoch_calls
           px_started px_epoch_end);
    reflexivity.
Defined.

Lemma posix_first_ticks_measure_between_own_reads_witness :
  value (@SDL_GetTicks _ _ android32 (px_boot long_running_device))
  = u32 4294967290 /\
  value (@SDL_GetTicks _ _ no_clock_gettime (px_boot wall_clock_device))
  = u32 5.
Proof.
  destruct (@posix_first_ticks_measure_between_own_reads _ _ android32
              (px_boot long_running_device) eq_refl)
    as [Hmono _].
  destruct (@posix_first_ticks_measure_between_own_reads _ _ no_clock_gettime
              (px_boot wall_clock_device) eq_refl)
    as [_ Hwall].
  split.
  - apply Hmono; try reflexivity; unfold valid_ts; simpl; lia.
  - apply Hwall; try reflexivity; unfold valid_tv; simpl; lia.
Defined.

Lemma posix_delay_retries_without_bound_witness :
  @SDL_Delay _ storm_os 1000 50 storm_boot = None.
Proof.
  apply (@posix_delay_retries_without_bound _ storm_os).
  intros tv w. reflexivity.
Defined.

Lemma posix_delay_uninterrupted_is_one_exact_sleep_witness :
  SDL_Delay 1 0 (px_boot wall_clock_device)
  = Some (mkState initial_globals wall_clock_device
            [EvNanosleep {| ts_sec := 0; ts_nsec := 0 |}]) /\
  ts_ns {| ts_sec := 4294967295 / 1000;
           ts_nsec := 4294967295 mod 1000 * 1000000 |}
  = 4294967295 * 1000000.
Proof.
  split.
  - apply (@posix_delay_uninterrupted_is_one_exact_sleep _ px_os 0%nat 0
             (px_boot wall_clock_device));
      [split; [discriminate | reflexivity] | reflexivity].
  - apply (@posix_delay_uninterrupted_is_one_exact_sleep _ px_os 0%nat
             4294967295 (px_boot wall_clock_device));
      [split; [discriminate | reflexivity] | reflexivity].
Defined.

Lemma posix_delay_requests_only_shrink_witness :
  exists tvs,
    trace delayed_50 = trace (px_boot monotonic_device) ++ map EvNanosleep tvs /\
    hd_error tvs
    = Some {| ts_sec := 50 / 1000; ts_nsec := 50 mod 1000 * 1000000 |} /\
    StronglySorted (fun a b => 0 <= ts_ns b < ts_ns a) tvs /\
    Forall (fun t => ts_ns t <= 50 * 1000000) tvs.
Proof.
  apply (@posix_delay_requests_only_shrink _ px_os 5%nat 50
           (px_boot monotonic_device) delayed_50).
  - exact PosixFacts.px_interruptions_decrease.
  - split; [discriminate | reflexivity].
  - reflexivity.
Defined.

End PosixMore.

(** ** More on the Windows half *)
Module WinMore.
Import CInt Win WinApi Script Bench.

(** *** The books of timer-resolution requests *)

Lemma held_app (tr ext : list event) :
  held (tr ++ ext) = fold_left account ext (held tr).
Proof. unfold held. apply fold_left_app. Qed.

Lemma account_quiet (ext : list event) :
  forallb quiet ext = true ->
  forall h, fold_left account ext h = h.
Proof.
  induction ext as [|e ext IH]; simpl; intros Hq h; [reflexivity|].
  apply andb_prop in Hq. destruct Hq as [He Hext].
  rewrite IH by exact Hext.
  destruct h as [l|]; [|reflexivity]. destruct e; try discriminate; reflexivity.
Qed.

Section WithOS.
Context {W : Type} {os : OS W}.

Lemma balanced_quiet (s : state W) (g : globals) (w : W) (ext : list event) :
  balanced s ->
  timer_period g = timer_period (mem s) ->
  forallb quiet ext = true ->
  balanced (mkState g w (trace s ++ ext)).
Proof.
  unfold balanced, recorded. simpl. intros Hb Hp Hq.
  rewrite held_app, account_quiet, Hb, Hp by exact Hq. reflexivity.
Qed.

Lemma SetSystemTimerResolution_balanced (p : Z) (s : state W) :
  balanced s -> balanced (after (SDL_SetSystemTimerResolution p s)).
Proof.
  intro Hb. rewrite WinFacts.SetSystemTimerResolution_run. unfold after.
  simpl. destruct (Z.eqb_spec p (timer_period (mem s))) as [E|E];
    [exact Hb|].
  unfold balanced, recorded, released, installed in *. simpl.
  rewrite held_app, Hb.
  destruct (Z.eqb_spec (timer_period (mem s)) 0) as [E0|E0]; simpl.
  - destruct (p =? 0); reflexivity.
  - rewrite Z.eqb_refl. destruct (p =? 0); reflexivity.
Qed.

Lemma TimerResolutionChanged_balanced
    (ud : Z) (name old hint : cptr) (s : state W) :
  balanced s ->
  balanced (after (SDL_TimerResolutionChanged ud name old hint s)).
Proof.
  intro Hb. rewrite WinFacts.TimerResolutionChanged_run.
  destruct (negb (hint_period hint =? 0) || negb (cptr_eqb old hint)).
  - apply SetSystemTimerResolution_balanced, Hb.
  - exact Hb.
Qed.

Lemma registered_balanced (s : state W) :
  balanced s -> balanced (registered s).
Proof.
  intro Hb. unfold registered, SDL_AddHintCallback, bind, call, after.
  simpl.
  destruct (os_AddHintCallback (world s)) as [[[old hint]|] w]; simpl.
  - apply (TimerResolutionChanged_balanced 0 None old hint).
    apply (balanced_quiet s); [exact Hb | reflexivity | reflexivity].
  - apply (balanced_quiet s); [exact Hb | reflexivity | reflexivity].
Qed.

Lemma TicksInit_balanced (s : state W) :
  balanced s -> balanced (after (SDL_TicksInit s)).
Proof.
  intro Hb. destruct (ticks_started (mem s)) eqn:Hst.
  - rewrite (WinFacts.win_TicksInit_started s Hst). exact Hb.
  - rewrite (WinFacts.win_TicksInit_fresh s Hst). cbv zeta.
    pose proof (registered_balanced s Hb) as Hr.
    destruct (fst (fst (os_QueryPerformanceFrequency (world (registered s))))
              =? 1);
      rewrite <- app_assoc;
      apply (balanced_quiet (registered s)); try exact Hr; reflexivity.
Qed.

Lemma ticks_now_balanced (s : state W) :
  balanced s -> balanced (after (ticks_now s)).
Proof.
  intro Hb. unfold ticks_now. cbv zeta.
  destruct (hires_timer_available (mem s)); unfold after; simpl;
    apply (balanced_quiet s); try exact Hb; reflexivity.
Qed.

Lemma GetTicks_balanced (s : state W) :
  balanced s -> balanced (after (SDL_GetTicks s)).
Proof.
  intro Hb. rewrite WinFacts.win_GetTicks_run.
  apply ticks_now_balanced, TicksInit_balanced, Hb.
Qed.

Lemma step_balanced (o : op) (s : state W) :
  balanced s -> balanced (step o s).
Proof.
  intro Hb. destruct o; simpl.
  - apply TicksInit_balanced, Hb.
  - rewrite WinFacts.TicksQuit_run. cbv zeta.
    unfold balanced, recorded, released, install_world in *. simpl.
    rewrite !held_app, Hb. simpl.
    destruct (Z.eqb_spec (timer_period (mem s)) 0) as [E0|E0]; simpl;
      [reflexivity|].
    rewrite Z.eqb_refl. reflexivity.
  - apply GetTicks_balanced, Hb.
  - rewrite WinFacts.win_GetPerformanceCounter_run. cbv zeta.
    assert (Hq : balanced
                   (mkState (mem s)
                      (snd (os_QueryPerformanceCounter (world s)))
                      (trace s ++ [EvQueryPerformanceCounter]))).
    { apply (balanced_quiet s); [exact Hb | reflexivity | reflexivity]. }
    destruct (fst (fst (os_QueryPerformanceCounter (world s))) =? 0);
      unfold after at 1; simpl; [apply GetTicks_balanced, Hq | exact Hq].
  - rewrite WinFacts.win_GetPerformanceFrequency_run. cbv zeta.
    unfold after. simpl.
    apply (balanced_quiet s); [exact Hb | reflexivity | reflexivity].
  - apply TimerResolutionChanged_balanced, Hb.
Qed.

(** X13.  The timer-resolution requests are kept in balance.  Starting
    from a state whose trace leaves with the operating system exactly
    the request [timer_period] records, any sequence of calls
    (initialisation, teardown, queries, hint changes) ends in such a
    state: at most one request is outstanding, every [timeEndPeriod]
    names the period of the request it gives back, and after
    [SDL_TicksQuit] nothing is outstanding. *)
Theorem win_timer_requests_stay_balanced (ops : list op) (s : state W) :
  balanced s ->
  balanced (run ops s) /\
  held (trace (after (SDL_TicksQuit (run ops s)))) = Some [].
Proof.
  intro Hb.
  assert (Hrun : balanced (run ops s)).
  { revert s Hb. induction ops as [|o rest IH]; intros s Hb; [exact Hb|].
    simpl. apply IH, step_balanced, Hb. }
  split; [exact Hrun|].
  pose proof (step_balanced OpTicksQuit (run ops s) Hrun) as Hq.
  unfold balanced in Hq. simpl in Hq. rewrite Hq.
  rewrite WinFacts.TicksQuit_run. reflexivity.
Qed.

(** *** The millisecond counter *)

(** X14.  On the [timeGetTime] path the counter is wrap-safe although
    the clock it reads wraps too: if the millisecond clock of the system
    stood at [T0] at the origin and at [T1], then [T2], at two readings
    (each seen through its low 32 bits), [SDL_GetTicks] returns
    [T1 - T0] modulo [2^32], and the [Uint32] difference of the two
    readings is [T2 - T1] when that is below [2^32]. *)
Theorem win_timeGetTime_ticks_wrap_safe
    (s1 s2 : state W) (T0 T1 T2 : Z) :
  ticks_started (mem s1) = true ->
  hires_timer_available (mem s1) = false ->
  mem s2 = mem s1 ->
  start (mem s1) = u32 T0 ->
  fst (os_timeGetTime (world s1)) = u32 T1 ->
  fst (os_timeGetTime (world s2)) = u32 T2 ->
  0 <= T2 - T1 < 2 ^ 32 ->
  value (SDL_GetTicks s1) = u32 (T1 - T0) /\
  u32 (value (SDL_GetTicks s2) - value (SDL_GetTicks s1)) = T2 - T1.
Proof.
  intros Hst Hlow Hmem H0 H1 H2 Hd.
  rewrite (TimeSource.win_lowres_ticks_value s1 Hst Hlow).
  rewrite (TimeSource.win_lowres_ticks_value s2)
    by (rewrite Hmem; assumption).
  rewrite Hmem, H0, H1, H2.
  assert (Hsub : forall a b, u32 (u32 a - u32 b) = u32 (a - b)).
  { intros a b. unfold u32. symmetry. apply Zminus_mod. }
  rewrite (Hsub T1 T0), (Hsub T2 T0). split; [reflexivity|].
  rewrite Hsub. replace (T2 - T0 - (T1 - T0)) with (T2 - T1) by lia.
  unfold u32. apply Z.mod_small, Hd.
Qed.

(** X15.  On the performance-counter path, as long as the counter has
    advanced by no more than 9223372036854775 ticks since the origin
    (so that the product by 1000 fits a [LONGLONG]), [SDL_GetTicks]
    returns the whole milliseconds elapsed, modulo [2^32]; a later
    reading is not smaller before any wrap, and the [Uint32] difference
    of two readings is the difference of those milliseconds. *)
Theorem win_hires_ticks_exact_in_range (s1 s2 : state W) :
  ticks_started (mem s1) = true ->
  hires_timer_available (mem s1) = true ->
  mem s2 = mem s1 ->
  let origin := hires_start_ticks (mem s1) in
  let freq := hires_ticks_per_second (mem s1) in
  let now1 := snd (fst (os_QueryPerformanceCounter (world s1))) in
  let now2 := snd (fst (os_QueryPerformanceCounter (world s2))) in
  0 < freq ->
  0 <= now1 - origin <= now2 - origin ->
  now2 - origin <= 9223372036854775 ->
  let ms1 := hires_ms origin freq now1 in
  let ms2 := hires_ms origin freq now2 in
  value (SDL_GetTicks s1) = u32 ms1 /\
  value (SDL_GetTicks s2) = u32 ms2 /\
  ms1 * freq <= (now1 - origin) * 1000 < (ms1 + 1) * freq /\
  0 <= ms1 <= ms2 /\
  (ms2 - ms1 < 2 ^ 32 ->
   u32 (value (SDL_GetTicks s2) - value (SDL_GetTicks s1)) = ms2 - ms1).
Proof.
  intros Hst Hhi Hmem origin freq now1 now2 Hf Hle Hfit ms1 ms2.
  assert (Hv1 : value (SDL_GetTicks s1) = u32 ms1).
  { apply (TimeSource.win_hires_ticks_value s1 Hst Hhi Hf).
    - fold now1 origin. lia.
    - fold now1 origin. change (2 ^ 63) with 9223372036854775808. lia. }
  assert (Hv2 : value (SDL_GetTicks s2) = u32 ms2).
  { subst ms2 origin freq. rewrite <- Hmem in *.
    apply (TimeSource.win_hires_ticks_value s2 Hst Hhi Hf).
    - fold now2. lia.
    - fold now2. change (2 ^ 63) with 9223372036854775808. lia. }
  assert (Hfloor : ms1 * freq <= (now1 - origin) * 1000 < (ms1 + 1) * freq).
  { subst ms1. unfold hires_ms.
    rewrite Z.quot_div_nonneg by lia.
    pose proof (Z.div_mod ((now1 - origin) * 1000) freq ltac:(lia)) as Hdm.
    pose proof (Z.mod_pos_bound ((now1 - origin) * 1000) freq Hf) as Hmb.
    nia. }
  assert (Hmono : 0 <= ms1 <= ms2).
  { subst ms1 ms2. unfold hires_ms.
    rewrite !Z.quot_div_nonneg by lia. split.
    - apply Z.div_pos; lia.
    - apply Z.div_le_mono; lia. }
  repeat split; try assumption; try lia.
  intro H32. rewrite Hv1, Hv2. apply TimeSource.u32_difference. lia.
Qed.

(** *** Initialisation and the hint *)

Lemma registered_with_hint (s : state W) (old hint : cptr) (w1 : W) :
  timer_period (mem s) = 0 ->
  os_AddHintCallback (world s) = (Some (old, hint), w1) ->
  registered s =
  if hint_period hint =? 0
  then mkState (set_ticks_started true (mem s)) w1
         (trace s ++ [EvAddHintCallback])
  else mkState (set_timer_period (hint_period hint)
                  (set_ticks_started true (mem s)))
         (os_timeBeginPeriod (hint_period hint) w1)
         (trace s ++ [EvAddHintCallback; EvTimeBeginPeriod (hint_period hint)]).
Proof.
  intros Hp Hos. unfold registered, SDL_AddHintCallback, bind, call, after.
  simpl. rewrite Hos. simpl.
  rewrite WinFacts.TimerResolutionChanged_run,
    WinFacts.SetSystemTimerResolution_run.
  simpl. rewrite Hp.
  unfold released, installed, release_world, install_world. simpl.
  destruct (Z.eqb_spec (hint_period hint) 0) as [E|E]; simpl.
  - destruct (cptr_eqb old hint); reflexivity.
  - rewrite <- app_assoc. reflexivity.
Qed.

(** X16.  [SDL_TicksInit] applies the hint the registry hands over when
    the callback is registered.  From a state that holds no request: a
    hint whose period is not zero (an absent or empty hint counts as
    period 1) is requested with one [timeBeginPeriod], right after the
    registration and before any clock is read, and becomes
    [timer_period]; a hint whose period is zero makes no timer call at
    all. *)
Theorem win_init_applies_registration_hint
    (s : state W) (old hint : cptr) (w1 : W) :
  ticks_started (mem s) = false ->
  timer_period (mem s) = 0 ->
  os_AddHintCallback (world s) = (Some (old, hint), w1) ->
  let s' := after (SDL_TicksInit s) in
  (nonempty hint = false -> hint_period hint = 1) /\
  (hint_period hint <> 0 ->
   timer_period (mem s') = hint_period hint /\
   exists clocks,
     forallb quiet clocks = true /\
     trace s' =
       trace s
       ++ [EvAddHintCallback; EvTimeBeginPeriod (hint_period hint)]
       ++ clocks) /\
  (hint_period hint = 0 ->
   timer_period (mem s') = 0 /\
   exists clocks,
     forallb quiet clocks = true /\
     trace s' = trace s ++ [EvAddHintCallback] ++ clocks).
Proof.
  intros Hst Hp Hos. cbv zeta.
  rewrite (WinFacts.win_TicksInit_fresh s Hst). cbv zeta.
  rewrite (registered_with_hint s old hint w1 Hp Hos).
  split; [|split].
  - intro Hne. unfold hint_period. rewrite Hne. reflexivity.
  - intro Hnz. apply Z.eqb_neq in Hnz. rewrite Hnz. simpl.
    match goal with
    | |- context [if ?b then _ else _] => destruct b
    end; simpl; (split; [reflexivity|]); eexists;
      (split; [|rewrite <- !app_assoc; simpl; reflexivity]); reflexivity.
  - intro Hz. rewrite Hz. simpl.
    match goal with
    | |- context [if ?b then _ else _] => destruct b
    end; simpl; (split; [exact Hp|]); eexists;
      (split; [|rewrite <- !app_assoc; simpl; reflexivity]); reflexivity.
Qed.

(** X19.  Announcing the period already in force is silent: when the
    hint computes to the period [timer_period] holds, whatever the old
    value was, the callback calls neither [timeEndPeriod] nor
    [timeBeginPeriod] and changes nothing. *)
Theorem win_hint_for_period_in_force_is_silent
    (ud : Z) (name old hint : cptr) (s : state W) :
  hint_period hint = timer_period (mem s) ->
  SDL_TimerResolutionChanged ud name old hint s = (tt, s).
Proof.
  intro Hsame. rewrite WinFacts.TimerResolutionChanged_run.
  destruct (negb (hint_period hint =? 0) || negb (cptr_eqb old hint));
    [|reflexivity].
  rewrite WinFacts.SetSystemTimerResolution_run, Hsame, Z.eqb_refl.
  reflexivity.
Qed.

(** *** Sequences of calls *)

Lemma GetTicks_mem (s : state W) :
  mem (after (SDL_GetTicks s)) = mem (after (SDL_TicksInit s)).
Proof.
  rewrite WinFacts.win_GetTicks_run. unfold ticks_now. cbv zeta.
  destruct (hires_timer_available (mem (after (SDL_TicksInit s))));
    reflexivity.
Qed.

Lemma step_started_mem (o : op) (s : state W) :
  ticks_started (mem s) = true ->
  is_quit o = false ->
  exists q, mem (step o s) = set_timer_period q (mem s).
Proof.
  intros Hst Hq.
  assert (Hid : exists q, mem s = set_timer_period q (mem s)).
  { exists (timer_period (mem s)). symmetry.
    apply WinFacts.set_timer_period_same. }
  destruct o; simpl; try discriminate Hq.
  - rewrite (WinFacts.win_TicksInit_started s Hst). exact Hid.
  - rewrite GetTicks_mem, (WinFacts.win_TicksInit_started s Hst). exact Hid.
  - rewrite WinFacts.win_GetPerformanceCounter_run. cbv zeta.
    destruct (fst (fst (os_QueryPerformanceCounter (world s))) =? 0);
      unfold after at 1; simpl; [|exact Hid].
    rewrite GetTicks_mem, WinFacts.win_TicksInit_started by exact Hst.
    exact Hid.
  - rewrite WinFacts.win_GetPerformanceFrequency_run. exact Hid.
  - apply WinFacts.TimerResolutionChanged_mem.
Qed.

(** X17.  Between initialisation and teardown the time source is not
    rewritten: from a started state, any sequence of calls without
    [SDL_TicksQuit] (initialisations, queries, hint changes) leaves the
    flag, the selected clock, both origins and the frequency as they
    were; only [timer_period] can move, with the hint. *)
Theorem win_epoch_is_frozen (ops : list op) (s : state W) :
  ticks_started (mem s) = true ->
  forallb (fun o => negb (is_quit o)) ops = true ->
  let g' := mem (run ops s) in
  ticks_started g' = true /\
  hires_timer_available g' = hires_timer_available (mem s) /\
  hires_start_ticks g' = hires_start_ticks (mem s) /\
  hires_ticks_per_second g' = hires_ticks_per_second (mem s) /\
  start g' = start (mem s).
Proof.
  intros Hst Hnq. cbv zeta.
  assert (H : exists q, mem (run ops s) = set_timer_period q (mem s)).
  { revert s Hst. induction ops as [|o rest IH]; intros s Hst; simpl.
    - exists (timer_period (mem s)). symmetry.
      apply WinFacts.set_timer_period_same.
    - simpl in Hnq. apply andb_prop in Hnq. destruct Hnq as [Ho Hrest].
      apply negb_true_iff in Ho.
      destruct (step_started_mem o s Hst Ho) as [q Hq].
      destruct (IH Hrest (step o s)) as [q' Hq'].
      + rewrite Hq. exact Hst.
      + exists q'. rewrite Hq', Hq. reflexivity. }
  destruct H as [q ->]. simpl. repeat split. exact Hst.
Qed.

(** *** The trace is only ever added to *)

Lemma registered_appends (g : globals) (w : W) (tr : list event) :
  registered (mkState g w tr) =
  let r := registered (mkState g w []) in
  mkState (mem r) (world r) (tr ++ trace r).
Proof.
  unfold registered, SDL_AddHintCallback, bind, call, after. simpl.
  destruct (os_AddHintCallback w) as [[[old hint]|] w1]; simpl;
    [|reflexivity].
  rewrite !WinFacts.TimerResolutionChanged_run.
  destruct (negb (hint_period hint =? 0) || negb (cptr_eqb old hint));
    [|reflexivity].
  rewrite !WinFacts.SetSystemTimerResolution_run. simpl.
  destruct (hint_period hint =? timer_period g); simpl; [reflexivity|].
  rewrite <- app_assoc. reflexivity.
Qed.

(** [SDL_TicksInit] does not read the trace: run from an empty trace it
    logs what it logs from any other, which is what [WinSleep.lift]
    relies on. *)
Lemma TicksInit_appends (g : globals) (w : W) (tr : list event) :
  after (SDL_TicksInit (mkState g w tr)) =
  let r := after (SDL_TicksInit (mkState g w [])) in
  mkState (mem r) (world r) (tr ++ trace r).
Proof.
  destruct (ticks_started g) eqn:Hst.
  - rewrite !WinFacts.win_TicksInit_started by exact Hst.
    unfold after. simpl. rewrite app_nil_r. reflexivity.
  - rewrite !WinFacts.win_TicksInit_fresh by exact Hst. cbv zeta.
    rewrite (registered_appends g w tr). cbv zeta. simpl.
    destruct (fst (fst (os_QueryPerformanceFrequency
                          (world (registered (mkState g w [])))))
              =? 1);
      simpl; rewrite <- !app_assoc; reflexivity.
Qed.

End WithOS.

(** *** Witnesses on the scripted machines *)

Lemma win_timer_requests_stay_balanced_witness :
  balanced (run win_session_calls (win_boot plain_machine)) /\
  held (trace (after (SDL_TicksQuit
                        (run win_session_calls (win_boot plain_machine)))))
  = Some [].
Proof.
  apply (@win_timer_requests_stay_balanced _ win_os win_session_calls
           (win_boot plain_machine)).
  reflexivity.
Defined.

Lemma win_timeGetTime_ticks_wrap_safe_witness :
  value (SDL_GetTicks (win_started old_machine)) = u32 (4294967290 - 4294967000)
  /\ u32 (value (SDL_GetTicks (win_read_once old_machine))
          - value (SDL_GetTicks (win_started old_machine)))
     = 4294967300 - 4294967290.
Proof.
  apply (@win_timeGetTime_ticks_wrap_safe _ win_os
           (win_started old_machine) (win_read_once old_machine)
           4294967000 4294967290 4294967300);
    try reflexivity.
  split; [discriminate | reflexivity].
Defined.

Lemma win_hires_ticks_exact_in_range_witness :
  value (SDL_GetTicks (win_started hires_machine)) = u32 0 /\
  value (SDL_GetTicks (win_read_once hires_machine)) = u32 1000.
Proof.
  destruct (@win_hires_ticks_exact_in_range _ win_os
              (win_started hires_machine) (win_read_once hires_machine)
              eq_refl eq_refl eq_refl)
    as (H1 & H2 & _).
  - reflexivity.
  - split; discriminate.
  - discriminate.
  - split; [exact H1 | exact H2].
Defined.

Lemma win_init_applies_registration_hint_witness :
  timer_period (mem (win_started plain_machine)) = 5 /\
  timer_period (mem (win_started old_machine)) = 1 /\
  timer_period (mem (win_started zero_hint_machine)) = 0.
Proof.
  destruct (@win_init_applies_registration_hint _ win_os
              (win_boot plain_machine) hint_5 hint_5 plain_machine
              eq_refl eq_refl eq_refl)
    as (_ & Hfive & _).
  destruct (@win_init_applies_registration_hint _ win_os
              (win_boot old_machine) None None old_machine
              eq_refl eq_refl eq_refl)
    as (Hdefault & Hone & _).
  destruct (@win_init_applies_registration_hint _ win_os
              (win_boot zero_hint_machine) hint_abc hint_abc zero_hint_machine
              eq_refl eq_refl eq_refl)
    as (_ & _ & Hzero).
  split; [|split].
  - apply Hfive. discriminate.
  - apply Hone. rewrite Hdefault by reflexivity. discriminate.
  - apply Hzero. reflexivity.
Defined.

Lemma win_hint_for_period_in_force_is_silent_witness :
  SDL_TimerResolutionChanged 0 None hint_abc hint_5 holding_5
  = (tt, holding_5).
Proof.
  apply (@win_hint_for_period_in_force_is_silent _ win_os).
  reflexivity.
Defined.

Lemma win_epoch_is_frozen_witness :
  hires_start_ticks (mem (run win_epoch_calls (win_started hires_machine)))
  = hires_start_ticks (mem (win_started hires_machine)) /\
  timer_period (mem (run win_epoch_calls (win_started hires_machine))) = 5.
Proof.
  split; [|reflexivity].
  apply (@win_epoch_is_frozen _ win_os win_epoch_calls
           (win_started hires_machine));
    reflexivity.
Defined.

(** *** The delay *)
Section WithSleep.
Context {W : Type} {os : OS W} {sleeper : WinSleep.OS W}.

(** X18.  The Windows [SDL_Delay], unlike the POSIX one, initialises:
    whatever state it is called in, [ticks_started] is set afterwards,
    and the last call it makes is the one [Sleep(ms)].  In a started
    state that [Sleep] is all it does; in a state not yet started the
    globals it leaves are those of [SDL_TicksInit]. *)
Theorem win_delay_initialises_then_sleeps_once
    (ms : Z) (s : WinSleep.state W) :
  let s' := after (WinSleep.SDL_Delay ms s) in
  ticks_started (WinSleep.mem s') = true /\
  (exists evs,
     WinSleep.trace s' =
       WinSleep.trace s ++ map WinSleep.Earlier evs ++ [WinSleep.EvSleep ms]) /\
  (ticks_started (WinSleep.mem s) = true ->
   s' = WinSleep.mkState (WinSleep.mem s)
          (WinSleep.os_Sleep ms (WinSleep.world s))
          (WinSleep.trace s ++ [WinSleep.EvSleep ms])) /\
  (ticks_started (WinSleep.mem s) = false ->
   WinSleep.mem s' =
   mem (after (SDL_TicksInit
                 (mkState (WinSleep.mem s) (WinSleep.world s) [])))).
Proof.
  cbv zeta. unfold WinSleep.SDL_Delay, WinSleep.get_mem, WinSleep.Sleep,
    WinSleep.lift, bind, when, ret, after. simpl.
  destruct (ticks_started (WinSleep.mem s)) eqn:Hst; simpl.
  - split; [exact Hst|]. split; [exists []; reflexivity|].
    split; [reflexivity | discriminate].
  - pose proof (WinFacts.win_TicksInit_sets_started
                  (mkState (WinSleep.mem s) (WinSleep.world s) [])) as Hon.
    unfold after in Hon.
    destruct (SDL_TicksInit (mkState (WinSleep.mem s) (WinSleep.world s) []))
      as [[] s1]. simpl in *.
    split; [exact Hon|]. split; [|split; [discriminate | reflexivity]].
    exists (trace s1). rewrite <- app_assoc. reflexivity.
Qed.

End WithSleep.

Lemma win_delay_initialises_then_sleeps_once_witness :
  WinSleep.trace (after (WinSleep.SDL_Delay 16
                           (WinSleep.mkState (mem (win_started hires_machine))
                              hires_machine [])))
  = [WinSleep.EvSleep 16] /\
  ticks_started
    (WinSleep.mem (after (WinSleep.SDL_Delay 16
                            (win_sleep_boot hires_machine)))) = true.
Proof.
  destruct (@win_delay_initialises_then_sleeps_once _ win_os win_sleeper 16
              (WinSleep.mkState (mem (win_started hires_machine))
                 hires_machine []))
    as (_ & _ & Hstarted & _).
  destruct (@win_delay_initialises_then_sleeps_once _ win_os win_sleeper 16
              (win_sleep_boot hires_machine))
    as (Hflag & _ & _ & Hfresh).
  split.
  - rewrite Hstarted by reflexivity. reflexivity.
  - rewrite Hfresh by reflexivity. reflexivity.
Defined.

End WinMore.
